(** * Gmail Analytics backend: a shallow embedding and its verified properties

    The development follows the two source files of the service:

    - [GmailUtils] embeds [backend/utils/gmail_utils.py] (class
      [GmailAnalytics]): the metrics aggregation, the top-sender derivation
      and the send / reply operations;
    - [Main] embeds [backend/main.py]: the in-memory token store, credential
      resolution, the endpoints and the route table.

    Python values are modelled as the code uses them: dictionaries whose
    iteration order is never consumed are [gmap]s, the [senders] dictionary
    (whose [items()] order feeds a stable sort) is an insertion-ordered
    association list, integers are [Z], [None]-or-string locals are
    [option string].  Remote calls (the Gmail client, the OAuth flow, the
    token refresh) are functions of the history of calls made so far, and
    every call is appended to that history, so that "no remote call happened"
    and "exactly this call happened" are statements about the history. *)

From Stdlib Require Import ZArith Ascii String List Lia Sorted.
From stdpp Require Import base option gmap strings pretty list fin_maps sorting.

(* String concatenation is written [+:+]; [++] is kept for lists. *)
Disable Notation "_ ++ _" : string_scope.
Local Open Scope string_scope.
Local Open Scope Z_scope.

(** ** Python values and exceptions *)

Module Py.

(** The values stored in the token dictionary and returned in JSON bodies. *)
Inductive PyVal : Type :=
| PNone
| PBool (b : bool)
| PInt (n : Z)
| PStr (s : string)
| PList (l : list string).

(** Python truth value testing ([if x:], [not x], [x and y]). *)
Definition truthy (v : PyVal) : bool :=
  match v with
  | PNone => false
  | PBool b => b
  | PInt n => negb (n =? 0)
  | PStr s => negb (String.eqb s "")
  | PList l => match l with [] => false | _ => true end
  end.

(** Truth value of a local that is [None] or a [str]. *)
Definition truthy_str (o : option string) : bool :=
  match o with
  | None => false
  | Some s => negb (String.eqb s "")
  end.

Definition of_opt_str (o : option string) : PyVal :=
  match o with None => PNone | Some s => PStr s end.

(** An exception as the code consumes it: only [str(e)] is ever read. *)
Inductive exn : Type := Exception (msg : string).

Definition str (e : exn) : string := let 'Exception m := e in m.

(** [str(KeyError(k))] is the [repr] of the key. *)
Definition KeyError (k : string) : exn := Exception ("'" +:+ k +:+ "'").

Inductive outcome (E A : Type) : Type :=
| Return (a : A)
| Raise (e : E).
Arguments Return {E A} a.
Arguments Raise {E A} e.

(** [s.startswith(p)] *)
Definition startswith (s p : string) : bool := String.prefix p s.

End Py.
Import Py.

(** ** The remote collaborators *)

Module Remote.

(** One entry per network round-trip issued by the service. *)
Inductive Call : Type :=
| CallList (q : string) (maxResults : Z)
| CallGet (id : string)
| CallSend (raw : string)
| CallGetProfile
| CallFetchToken (code : string)
| CallRefresh.

Definition History : Type := list Call.

Record Header : Type := { header_name : string; header_value : string }.

(** A message resource in [format='metadata'].  Fields the code indexes
    directly ([msg['payload']['headers']]) are fields; the one read through
    [.get(..., 0)] is optional. *)
Record Message : Type :=
  { payload_headers : list Header;
    sizeEstimate : option Z }.

Record MessageRef : Type := { msg_id : string }.

(** The result of [messages().list(...)]; [messages] is read with
    [.get('messages', [])]. *)
Record ListResult : Type := { messages : option (list MessageRef) }.

Record SendResponse : Type := { sent_id : string }.

Record Profile : Type :=
  { emailAddress : option string;
    messagesTotal : option Z;
    threadsTotal : option Z }.

(** The object returned by [build('gmail', 'v1', credentials=...)]: each
    [.execute()] answers from the history of calls made before it. *)
Record Service : Type :=
  { messages_list : History -> string -> Z -> outcome exn ListResult;
    messages_get : History -> string -> outcome exn Message;
    messages_send : History -> string -> outcome exn SendResponse;
    users_getProfile : History -> outcome exn Profile }.

(** Computations that talk to the remote side: the history is threaded. *)
Definition M (A : Type) : Type := History -> outcome exn A * History.

Definition ret {A} (a : A) : M A := fun h => (Return a, h).
Definition raise {A} (e : exn) : M A := fun h => (Raise e, h).
Definition bind {A B} (m : M A) (k : A -> M B) : M B :=
  fun h => match m h with
           | (Return a, h') => k a h'
           | (Raise e, h') => (Raise e, h')
           end.
(** A pure library call that may raise. *)
Definition lift {A} (o : outcome exn A) : M A := fun h => (o, h).
(** A remote call: answered from the history, then recorded. *)
Definition remote {A} (c : Call) (answer : History -> outcome exn A) : M A :=
  fun h => (answer h, h ++ [c]).

(** [try: m except Exception as e: raise Exception(f"{prefix}{str(e)}")] *)
Definition try_reraise {A} (prefix : string) (m : M A) : M A :=
  fun h => match m h with
           | (Raise e, h') => (Raise (Exception (prefix +:+ str e)), h')
           | r => r
           end.

End Remote.
Import Remote.

Notation "'let*' x ':=' m 'in' k" := (Remote.bind m (fun x => k))
  (at level 10, x name, m at level 100, k at level 200).

(** ** [backend/utils/gmail_utils.py] *)

Module GmailUtils.

(** What the module takes from the Python standard library. *)
Record Library : Type :=
  { (** lines 14-17: the search query for the window ending now. *)
    window_query : Z -> outcome exn string;
    (** [datetime.strptime(date, '%a, %d %b %Y %H:%M:%S %z').hour];
        [None] stands for the [ValueError] of a failed parse. *)
    strptime_hour : string -> option Z;
    (** lines 109-115: [MIMEText(body)] with its [to] and [subject]
        headers, serialised by [as_bytes()] and encoded as url-safe base64
        text; the step raises for messages the email library refuses to
        build or serialise. *)
    mime_raw : string -> string -> string -> outcome exn string }.

Record GmailAnalytics : Type := { service : Service }.

Record SizeDistribution : Type := { small : Z; medium : Z; large : Z }.

Record Metrics : Type :=
  { total_emails : Z;
    senders : list (string * Z);
    subjects : gmap string Z;
    time_distribution : gmap Z Z;
    email_size_distribution : SizeDistribution }.

Inductive Bucket : Type := Small | Medium | Large.

(** lines 76-81 *)
Definition size_bucket (size : Z) : Bucket :=
  if size <? 1024 * 1024 then Small
  else if size <? 5 * 1024 * 1024 then Medium
  else Large.

Definition bump_bucket (b : Bucket) (d : SizeDistribution) : SizeDistribution :=
  match b with
  | Small => {| small := small d + 1; medium := medium d; large := large d |}
  | Medium => {| small := small d; medium := medium d + 1; large := large d |}
  | Large => {| small := small d; medium := medium d; large := large d + 1 |}
  end.

(** [d[k] = d.get(k, 0) + 1] on an insertion-ordered dictionary: an
    existing key keeps its position, a new key goes last. *)
Fixpoint od_incr (k : string) (d : list (string * Z)) : list (string * Z) :=
  match d with
  | [] => [(k, 0 + 1)]
  | (k', c) :: d' =>
      if String.eqb k' k then (k', c + 1) :: d' else (k', c) :: od_incr k d'
  end.

(** [d[k] = d.get(k, 0) + 1] on a dictionary whose order is not consumed. *)
Definition incr `{Countable K} (k : K) (d : gmap K Z) : gmap K Z :=
  <[k := default 0 (d !! k) + 1]> d.

(** lines 48-58: the three locals after the header loop, as
    [(date, sender, subject)]; a later header overwrites an earlier one. *)
Definition scan_header (acc : option string * option string * option string)
    (header : Header) : option string * option string * option string :=
  let '(date, sender, subject) := acc in
  if String.eqb (header_name header) "From" then
    (date, Some (header_value header), subject)
  else if String.eqb (header_name header) "Subject" then
    (date, sender, Some (header_value header))
  else if String.eqb (header_name header) "Date" then
    (Some (header_value header), sender, subject)
  else acc.

Definition scan_headers (headers : list Header)
    : option string * option string * option string :=
  fold_left scan_header headers (None, None, None).

Section WithLibrary.
Variable lib : Library.

(** lines 66-72 *)
Definition count_hour (date : option string) (td : gmap Z Z) : gmap Z Z :=
  if truthy_str date then
    match date with
    | Some d =>
        match strptime_hour lib d with
        | Some hour => incr hour td
        | None => td
        end
    | None => td
    end
  else td.

(** lines 47-81: the body of the loop once [msg] has been fetched. *)
Definition account (msg : Message) (metrics : Metrics) : Metrics :=
  let '(date, sender, subject) := scan_headers (payload_headers msg) in
  let senders1 :=
    if truthy_str sender
    then match sender with
         | Some s => od_incr s (senders metrics)
         | None => senders metrics
         end
    else senders metrics in
  let subjects1 :=
    if truthy_str subject
    then match subject with
         | Some s => incr s (subjects metrics)
         | None => subjects metrics
         end
    else subjects metrics in
  let size := default 0 (sizeEstimate msg) in
  {| total_emails := total_emails metrics;
     senders := senders1;
     subjects := subjects1;
     time_distribution := count_hour date (time_distribution metrics);
     email_size_distribution :=
       bump_bucket (size_bucket size) (email_size_distribution metrics) |}.

(** lines 40-81 *)
Fixpoint for_messages (self : GmailAnalytics) (msgs : list MessageRef)
    (metrics : Metrics) : M Metrics :=
  match msgs with
  | [] => ret metrics
  | message :: rest =>
      let* msg := remote (CallGet (msg_id message))
                    (fun h => messages_get (service self) h (msg_id message)) in
      for_messages self rest (account msg metrics)
  end.

(** lines 28-38 *)
Definition initial_metrics (msgs : list MessageRef) : Metrics :=
  {| total_emails := Z.of_nat (length msgs);
     senders := [];
     subjects := ∅;
     time_distribution := ∅;
     email_size_distribution := {| small := 0; medium := 0; large := 0 |} |}.

(** lines 12-86 *)
Definition get_email_metrics (self : GmailAnalytics) (days : Z) : M Metrics :=
  let* query := lift (window_query lib days) in
  try_reraise "Error fetching email metrics: "
    (let* results := remote (CallList query 500)
                       (fun h => messages_list (service self) h query 500) in
     let msgs := default [] (messages results) in
     for_messages self msgs (initial_metrics msgs)).

Record SenderCount : Type := { sender : string; count : Z }.

(** [sorted(items, key=lambda x: x[1], reverse=True)]: a stable sort,
    descending on the count; equal counts keep their order in [items]. *)
Fixpoint insert_desc (x : string * Z) (l : list (string * Z))
    : list (string * Z) :=
  match l with
  | [] => [x]
  | y :: l' => if snd x <? snd y then y :: insert_desc x l' else x :: y :: l'
  end.

Definition sorted_desc (items : list (string * Z)) : list (string * Z) :=
  foldr insert_desc [] items.

(** lines 92-99, on the [senders] dictionary *)
Definition top_senders (d : list (string * Z)) : list SenderCount :=
  map (fun x => {| sender := fst x; count := snd x |})
      (take 10 (sorted_desc d)).

(** lines 88-99 *)
Definition get_top_senders (self : GmailAnalytics) (days : Z)
    : M (list SenderCount) :=
  let* metrics := get_email_metrics self days in
  ret (top_senders (senders metrics)).

(** lines 101-104 *)
Definition get_time_distribution (self : GmailAnalytics) (days : Z)
    : M (gmap Z Z) :=
  let* metrics := get_email_metrics self days in
  ret (time_distribution metrics).

Record SendResult : Type := { message_id : string; status : string }.

(** lines 106-127 *)
Definition send_email (self : GmailAnalytics) (to subject body : string)
    : M SendResult :=
  try_reraise "Error sending email: "
    (let* raw_message := lift (mime_raw lib to subject body) in
     let* send_message :=
       remote (CallSend raw_message)
              (fun h => messages_send (service self) h raw_message) in
     ret {| message_id := sent_id send_message; status := "sent" |}).

(** lines 149-152 *)
Definition reply_subject (original_subject : string) : string :=
  if negb (startswith original_subject "Re: ")
  then "Re: " +:+ original_subject
  else original_subject.

(** lines 140-152: the locals [(to, subject, original_subject)] after
    one more header. *)
Definition scan_reply_header
    (acc : option string * option string * option string) (header : Header)
    : option string * option string * option string :=
  let '(to, subject, original_subject) := acc in
  if String.eqb (header_name header) "From" then
    (Some (header_value header), subject, original_subject)
  else if String.eqb (header_name header) "Subject" then
    (to, Some (reply_subject (header_value header)),
     Some (header_value header))
  else acc.

Definition scan_reply_headers (headers : list Header)
    : option string * option string * option string :=
  fold_left scan_reply_header headers (None, None, None).

(** lines 129-160 *)
Definition reply_to_email (self : GmailAnalytics)
    (message_id reply_body : string) : M SendResult :=
  try_reraise "Error replying to email: "
    (let* original :=
       remote (CallGet message_id)
              (fun h => messages_get (service self) h message_id) in
     let '(to, subject, _) := scan_reply_headers (payload_headers original) in
     if negb (truthy_str to) || negb (truthy_str subject) then
       raise (Exception "Could not determine recipient or subject")
     else
       match to, subject with
       | Some to', Some subject' => send_email self to' subject' reply_body
       | _, _ => raise (Exception "Could not determine recipient or subject")
       end).

End WithLibrary.

End GmailUtils.

(** ** [backend/main.py] *)

Module Main.

(** The fields of a [google.oauth2.credentials.Credentials] object that
    the service reads or writes. *)
Record Credentials : Type :=
  { token : PyVal;
    refresh_token : PyVal;
    token_uri : PyVal;
    client_id : PyVal;
    client_secret : PyVal;
    scopes : PyVal }.

Record HTTPException : Type := { status_code : Z; detail : string }.

(** What can be raised inside the [try] block of a handler. *)
Inductive raised : Type :=
| RaisedHTTP (e : HTTPException)
| RaisedExc (e : exn).

(** The libraries and remote parties the module is linked against. *)
Record Platform : Type :=
  { (** [flow.fetch_token(code=code)]: on success, the credentials the
        flow holds from then on. *)
    oauth_fetch_token : History -> string -> outcome exn Credentials;
    (** [flow.authorization_url(...)[0]] *)
    oauth_authorization_url : string;
    (** [credentials.valid] and [credentials.expired] *)
    cred_valid : Credentials -> bool;
    cred_expired : Credentials -> bool;
    (** [credentials.refresh(Request())]: the credentials object after
        the in-place refresh. *)
    cred_refresh : History -> Credentials -> outcome exn Credentials;
    (** [build('gmail', 'v1', credentials=credentials)] *)
    build : Credentials -> outcome exn Service;
    (** [str(e)] for an [HTTPException] caught by [except Exception]. *)
    http_exception_str : HTTPException -> string;
    stdlib : GmailUtils.Library }.

(** Module-level mutable state: the [tokens] dictionary (line 65), the
    credentials held by the global [flow] (line 51), and the remote calls
    issued so far. *)
Record AppState : Type :=
  { tokens : gmap string (gmap string PyVal);
    flow_credentials : option Credentials;
    calls : History }.

Definition set_tokens (t : gmap string (gmap string PyVal)) (st : AppState) :=
  {| tokens := t; flow_credentials := flow_credentials st; calls := calls st |}.
Definition set_flow (c : option Credentials) (st : AppState) :=
  {| tokens := tokens st; flow_credentials := c; calls := calls st |}.
Definition set_calls (h : History) (st : AppState) :=
  {| tokens := tokens st; flow_credentials := flow_credentials st; calls := h |}.

(** Code inside a [try] block, and a handler as the framework sees it. *)
Definition Body (A : Type) : Type := AppState -> outcome raised A * AppState.
Definition App (A : Type) : Type := AppState -> outcome HTTPException A * AppState.

Definition bret {A} (a : A) : Body A := fun st => (Return a, st).
Definition braise {A} (e : raised) : Body A := fun st => (Raise e, st).
Definition bbind {A B} (m : Body A) (k : A -> Body B) : Body B :=
  fun st => match m st with
            | (Return a, st') => k a st'
            | (Raise e, st') => (Raise e, st')
            end.

(** Run a computation of the mail client against the application's
    call history. *)
Definition run_remote {A} (m : M A) : Body A :=
  fun st => match m (calls st) with
            | (Return a, h) => (Return a, set_calls h st)
            | (Raise e, h) => (Raise (RaisedExc e), set_calls h st)
            end.

(** [d[k]] on the stored dictionary *)
Definition getitem (d : gmap string PyVal) (k : string) : Body PyVal :=
  match d !! k with
  | Some v => bret v
  | None => braise (RaisedExc (KeyError k))
  end.

Inductive Content : Type :=
| JSONDict (d : gmap string PyVal)
| JSONMetrics (m : GmailUtils.Metrics)
| JSONSent (r : GmailUtils.SendResult).

Record EmailRequest : Type := { to : string; subject : string; body : string }.
Record ReplyRequest : Type := { reply_message_id : string; reply_body : string }.

Section WithPlatform.
Variable P : Platform.

Definition str_raised (e : raised) : string :=
  match e with
  | RaisedHTTP h => http_exception_str P h
  | RaisedExc x => str x
  end.

(** [try: body except Exception as e:
      raise HTTPException(status_code=code, detail=f"{prefix}{str(e)}")] *)
Definition try_http {A} (code : Z) (prefix : string) (m : Body A) : App A :=
  fun st => match m st with
            | (Return a, st') => (Return a, st')
            | (Raise e, st') =>
                (Raise {| status_code := code;
                          detail := prefix +:+ str_raised e |}, st')
            end.

(** [flow.fetch_token(code=code)]; [credentials = flow.credentials] *)
Definition fetch_token_credentials (code : string) : Body Credentials :=
  fun st =>
    let st' := set_calls (calls st ++ [CallFetchToken code]) st in
    match oauth_fetch_token P (calls st) code with
    | Return c => (Return c, set_flow (Some c) st')
    | Raise e => (Raise (RaisedExc e), st')
    end.

(** lines 74-81 *)
Definition token_data_of (credentials : Credentials) : gmap string PyVal :=
  <["scopes" := scopes credentials]>
  (<["client_secret" := client_secret credentials]>
  (<["client_id" := client_id credentials]>
  (<["token_uri" := token_uri credentials]>
  (<["refresh_token" := refresh_token credentials]>
  (<["token" := token credentials]> ∅))))).

(** lines 67-91: the handler registered first for the callback path. *)
Definition google_auth_callback (code : string) : App Content :=
  try_http 400 "Error during authentication: "
    (bbind (fetch_token_credentials code) (fun credentials =>
     let token_data := token_data_of credentials in
     fun st =>
       (Return (JSONDict
          (<["refresh_token" := refresh_token credentials]>
           (<["access_token" := token credentials]> ∅))),
        set_tokens (<["current_user" := token_data]> (tokens st)) st))).

(** lines 104-111 *)
Definition recreate_credentials (token_data : gmap string PyVal)
    : Body Credentials :=
  bbind (getitem token_data "token") (fun v_token =>
  bbind (getitem token_data "refresh_token") (fun v_refresh =>
  bbind (getitem token_data "token_uri") (fun v_uri =>
  bbind (getitem token_data "client_id") (fun v_id =>
  bbind (getitem token_data "client_secret") (fun v_secret =>
  bbind (getitem token_data "scopes") (fun v_scopes =>
  bret {| token := v_token; refresh_token := v_refresh;
          token_uri := v_uri; client_id := v_id;
          client_secret := v_secret; scopes := v_scopes |})))))).

(** line 116: [credentials.refresh(Request())] *)
Definition refresh (credentials : Credentials) : Body Credentials :=
  fun st =>
    let st' := set_calls (calls st ++ [CallRefresh]) st in
    match cred_refresh P (calls st) credentials with
    | Return c => (Return c, st')
    | Raise e => (Raise (RaisedExc e), st')
    end.

(** line 118: [tokens['current_user']['token'] = v] *)
Definition store_token (v : PyVal) : Body unit :=
  fun st =>
    match tokens st !! "current_user" with
    | Some d =>
        (Return tt,
         set_tokens (<["current_user" := <["token" := v]> d]> (tokens st)) st)
    | None => (Raise (RaisedExc (KeyError "current_user")), st)
    end.

(** lines 93-125 *)
Definition get_credentials : App Credentials :=
  try_http 401 "Invalid credentials: "
    (fun st =>
       match tokens st !! "current_user" with
       | None =>
           braise (RaisedHTTP {| status_code := 401;
                                 detail := "No credentials found" |}) st
       | Some token_data =>
           if bool_decide (token_data = ∅) then
             braise (RaisedHTTP {| status_code := 401;
                                   detail := "No credentials found" |}) st
           else
             bbind (recreate_credentials token_data) (fun credentials =>
               if negb (cred_valid P credentials) then
                 if cred_expired P credentials
                    && truthy (refresh_token credentials) then
                   bbind (refresh credentials) (fun credentials' =>
                   bbind (store_token (token credentials')) (fun _ =>
                   bret credentials'))
                 else bret credentials
               else bret credentials) st
       end).

(** [credentials: Credentials = Depends(get_credentials)]: the
    dependency is resolved first; if it raises, the handler body
    does not run. *)
Definition Depends {A B} (dep : App A) (handler : A -> App B) : App B :=
  fun st => match dep st with
            | (Return a, st') => handler a st'
            | (Raise e, st') => (Raise e, st')
            end.

(** lines 127-129 *)
Definition root : App Content :=
  fun st => (Return (JSONDict {["message" := PStr "Welcome to Gmail Analytics API"]}), st).

Definition build_service (credentials : Credentials) : Body Service :=
  fun st => match build P credentials with
            | Return s => (Return s, st)
            | Raise e => (Raise (RaisedExc e), st)
            end.

(** lines 131-146 *)
Definition verify_token : App Content :=
  Depends get_credentials (fun credentials =>
    try_http 401 "Token verification failed: "
      (bbind (build_service credentials) (fun service =>
       bbind (run_remote (remote CallGetProfile (users_getProfile service)))
         (fun profile =>
       bret (JSONDict
         (<["threads_total" := PInt (default 0 (threadsTotal profile))]>
         (<["messages_total" := PInt (default 0 (messagesTotal profile))]>
         (<["email" := of_opt_str (emailAddress profile)]>
         (<["valid" := PBool true]> ∅))))))))).

(** lines 148-155 *)
Definition google_auth : App Content :=
  fun st => (Return (JSONDict
               {["authorization_url" := PStr (oauth_authorization_url P)]}), st).

(** lines 157-167: the second function registered for the callback
    path. *)
Definition google_auth_callback_redefined (code : string) : App Content :=
  try_http 400 "Error during authentication: "
    (bbind (fetch_token_credentials code) (fun credentials =>
     bret (JSONDict {["access_token" := token credentials]}))).

(** [GmailAnalytics(credentials)] *)
Definition new_GmailAnalytics (credentials : Credentials)
    : Body GmailUtils.GmailAnalytics :=
  bbind (build_service credentials) (fun s =>
  bret {| GmailUtils.service := s |}).

(** lines 169-179 *)
Definition get_gmail_analytics (days : Z) : App Content :=
  Depends get_credentials (fun credentials =>
    try_http 500 "Error fetching analytics: "
      (bbind (new_GmailAnalytics credentials) (fun analytics =>
       bbind (run_remote (GmailUtils.get_email_metrics (stdlib P) analytics days))
         (fun metrics =>
       bret (JSONMetrics metrics))))).

(** lines 190-203 *)
Definition send_email (request : EmailRequest) : App Content :=
  Depends get_credentials (fun credentials =>
    try_http 500 "Error sending email: "
      (bbind (new_GmailAnalytics credentials) (fun analytics =>
       bbind (run_remote (GmailUtils.send_email (stdlib P) analytics
                            (to request) (subject request) (body request)))
         (fun result =>
       bret (JSONSent result))))).

(** lines 205-218 *)
Definition reply_email (request : ReplyRequest) : App Content :=
  Depends get_credentials (fun credentials =>
    try_http 500 "Error replying to email: "
      (bbind (new_GmailAnalytics credentials) (fun analytics =>
       bbind (run_remote (GmailUtils.reply_to_email (stdlib P) analytics
                            (reply_message_id request) (reply_body request)))
         (fun result =>
       bret (JSONSent result))))).

(** *** The route table

    Each [@app.get] / [@app.post] decorator appends a route; the
    framework serves a request with the first route that matches. *)

Inductive Endpoint : Type :=
| EpCallback
| EpRoot
| EpVerifyToken
| EpGoogleAuth
| EpCallbackRedefined
| EpAnalytics
| EpSendEmail
| EpReplyEmail.

Definition routes : list (string * string * Endpoint) :=
  [ ("GET", "/auth/google/callback", EpCallback);
    ("GET", "/", EpRoot);
    ("GET", "/api/verify-token", EpVerifyToken);
    ("GET", "/auth/google", EpGoogleAuth);
    ("GET", "/auth/google/callback", EpCallbackRedefined);
    ("GET", "/api/analytics", EpAnalytics);
    ("POST", "/api/send-email", EpSendEmail);
    ("POST", "/api/reply-email", EpReplyEmail) ].

Fixpoint first_match (method path : string)
    (rs : list (string * string * Endpoint)) : option Endpoint :=
  match rs with
  | [] => None
  | (m, p, ep) :: rs' =>
      if String.eqb m method && String.eqb p path then Some ep
      else first_match method path rs'
  end.

(** The parameters of a request after the framework has parsed them. *)
Inductive Params : Type :=
| NoParams
| QueryCode (code : string)
| QueryDays (days : Z)
| JSONEmail (request : EmailRequest)
| JSONReply (request : ReplyRequest).

Record Request : Type :=
  { method : string; path : string; params : Params }.

Definition http_error {A} (code : Z) (msg : string) : App A :=
  fun st => (Raise {| status_code := code; detail := msg |}, st).

Definition call_endpoint (ep : Endpoint) (ps : Params) : App Content :=
  match ep, ps with
  | EpCallback, QueryCode code => google_auth_callback code
  | EpRoot, _ => root
  | EpVerifyToken, _ => verify_token
  | EpGoogleAuth, _ => google_auth
  | EpCallbackRedefined, QueryCode code => google_auth_callback_redefined code
  | EpAnalytics, QueryDays days => get_gmail_analytics days
  | EpAnalytics, NoParams => get_gmail_analytics 30
  | EpSendEmail, JSONEmail request => send_email request
  | EpReplyEmail, JSONReply request => reply_email request
  | _, _ => http_error 422 "Unprocessable Entity"
  end.

Definition serve (req : Request) : App Content :=
  match first_match (method req) (path req) routes with
  | Some ep => call_endpoint ep (params req)
  | None => http_error 404 "Not Found"
  end.

(** The HTTP status of the response the framework sends. *)
Definition response_status {A} (r : outcome HTTPException A) : Z :=
  match r with
  | Return _ => 200
  | Raise e => status_code e
  end.

End WithPlatform.

End Main.

(** ** Concrete instances

    A small mailbox and a small platform on which the model runs.  They
    are used to evaluate the embedding on concrete inputs. *)

Module Demo.
Import GmailUtils Main.

Definition digit_of (a : Ascii.ascii) : option Z :=
  let n := Z.of_N (Ascii.N_of_ascii a) in
  if (48 <=? n) && (n <=? 57) then Some (n - 48) else None.

(** The hour of a date laid out as ["Mon, 02 Jan 2006 15:04:05 +0000"]:
    two digits at offset 17, followed by a colon, at most 23. *)
Definition fixed_layout_hour (date : string) : option Z :=
  match String.get 17%nat date, String.get 18%nat date,
        String.get 19%nat date with
  | Some a, Some b, Some c =>
      match digit_of a, digit_of b with
      | Some x, Some y =>
          if Ascii.eqb c ":"%char && (10 * x + y <=? 23)
          then Some (10 * x + y) else None
      | _, _ => None
      end
  | _, _, _ => None
  end.

(** Whether a header value holds a line feed. *)
Fixpoint has_line_feed (s : string) : bool :=
  match s with
  | EmptyString => false
  | String a s' => Ascii.eqb a "010"%char || has_line_feed s'
  end.

(** The subject [a], line feed, [b]. *)
Definition two_line_subject : string :=
  String "a"%char (String "010"%char (String "b"%char EmptyString)).

Definition lib : Library :=
  {| window_query := fun _ => Return "after:2024/01/01 before:2024/01/31";
     strptime_hour := fixed_layout_hour;
     mime_raw := fun to subject body =>
       if has_line_feed to || has_line_feed subject then
         Raise (Exception "folded header contains newline")
       else
         Return ("to=" +:+ to +:+ ";subject=" +:+ subject +:+
                 ";body=" +:+ body) |}.

Definition hdr (n v : string) : Header :=
  {| header_name := n; header_value := v |}.

Definition mailbox (id : string) : outcome exn Message :=
  if String.eqb id "m1" then
    Return {| payload_headers :=
                [hdr "From" "alice@example.com"; hdr "Subject" "Hello";
                 hdr "Date" "Mon, 02 Jan 2006 15:04:05 +0000"];
              sizeEstimate := Some 2048 |}
  else if String.eqb id "m2" then
    Return {| payload_headers :=
                [hdr "From" "bob@example.com"; hdr "Subject" "Re: Hello";
                 hdr "Date" "2006-01-02 09:00"];
              sizeEstimate := Some 5242880 |}
  else if String.eqb id "m3" then
    Return {| payload_headers :=
                [hdr "Date" "Tue, 03 Jan 2006 07:30:00 +0100";
                 hdr "Subject" "RE: Hello"; hdr "From" "bob@example.com"];
              sizeEstimate := None |}
  else Raise (Exception "HttpError 404: Requested entity was not found.").

Definition gmail : Service :=
  {| messages_list := fun _ _ maxResults =>
       if maxResults <? 0 then
         Raise (Exception "HttpError 400: Invalid value for maxResults")
       else
         Return {| messages :=
           Some (take (Z.to_nat maxResults)
                      [ {| msg_id := "m1" |}; {| msg_id := "m2" |};
                        {| msg_id := "m3" |} ]) |};
     messages_get := fun _ id => mailbox id;
     messages_send := fun h _ =>
       Return {| sent_id := "sent-" +:+ pretty (length h) |};
     users_getProfile := fun _ =>
       Return {| emailAddress := Some "me@example.com";
                 messagesTotal := Some 3; threadsTotal := Some 2 |} |}.

Definition analytics : GmailAnalytics := {| service := gmail |}.

(** The report, the call history and the top senders of this mailbox. *)
Definition report : Metrics :=
  {| total_emails := 3;
     senders := [("alice@example.com", 1); ("bob@example.com", 2)];
     subjects := <["RE: Hello" := 1]> (<["Re: Hello" := 1]> {["Hello" := 1]});
     time_distribution := <[7 := 1]> {[15 := 1]};
     email_size_distribution := {| small := 2; medium := 0; large := 1 |} |}.

Definition history : History :=
  [CallList "after:2024/01/01 before:2024/01/31" 500;
   CallGet "m1"; CallGet "m2"; CallGet "m3"].

Definition top : list SenderCount :=
  [ {| sender := "bob@example.com"; count := 2 |};
    {| sender := "alice@example.com"; count := 1 |} ].

(** The message [m2], whose Date header is not in the expected layout. *)
Definition unparsed : Message :=
  {| payload_headers :=
       [hdr "From" "bob@example.com"; hdr "Subject" "Re: Hello";
        hdr "Date" "2006-01-02 09:00"];
     sizeEstimate := Some 5242880 |}.

Definition stored : Credentials :=
  {| token := PStr "ya29.old"; refresh_token := PNone;
     token_uri := PStr "https://oauth2.googleapis.com/token";
     client_id := PStr "client"; client_secret := PStr "secret";
     scopes := PList ["https://www.googleapis.com/auth/gmail.readonly"] |}.

Definition stored_refreshable : Credentials :=
  {| token := PStr "ya29.old"; refresh_token := PStr "1//refresh";
     token_uri := PStr "https://oauth2.googleapis.com/token";
     client_id := PStr "client"; client_secret := PStr "secret";
     scopes := PList ["https://www.googleapis.com/auth/gmail.readonly"] |}.

(** A platform on which every access token is reported expired. *)
Definition platform : Platform :=
  {| oauth_fetch_token := fun _ code =>
       if String.eqb code "good" then Return stored_refreshable
       else Raise (Exception "(invalid_grant) Bad Request");
     oauth_authorization_url := "https://accounts.google.com/o/oauth2/auth";
     cred_valid := fun _ => false;
     cred_expired := fun _ => true;
     cred_refresh := fun _ c =>
       Return {| token := PStr "ya29.new";
                 refresh_token := PStr "1//rotated";
                 token_uri := token_uri c; client_id := client_id c;
                 client_secret := client_secret c; scopes := scopes c |};
     build := fun _ => Return gmail;
     http_exception_str := fun e => pretty (status_code e) +:+ ": " +:+ detail e;
     stdlib := lib |}.

Definition empty_state : AppState :=
  {| tokens := ∅; flow_credentials := None; calls := [] |}.

Definition state_with (c : Credentials) : AppState :=
  {| tokens := {["current_user" := token_data_of c]};
     flow_credentials := None; calls := [] |}.

(** A mail service whose list call fails. *)
Definition gmail_down : Service :=
  {| messages_list := fun _ _ _ =>
       Raise (Exception "HttpError 503: Backend Error");
     messages_get := messages_get gmail;
     messages_send := fun _ _ => Raise (Exception "HttpError 503: Backend Error");
     users_getProfile := users_getProfile gmail |}.

(** A mail service that lists a message it can no longer deliver. *)
Definition gmail_stale : Service :=
  {| messages_list := fun _ _ _ =>
       Return {| messages :=
         Some [ {| msg_id := "m1" |}; {| msg_id := "gone" |};
                {| msg_id := "m3" |} ] |};
     messages_get := messages_get gmail;
     messages_send := messages_send gmail;
     users_getProfile := users_getProfile gmail |}.

(** A mail service whose list result has no ['messages'] entry. *)
Definition gmail_empty : Service :=
  {| messages_list := fun _ _ _ => Return {| messages := None |};
     messages_get := messages_get gmail;
     messages_send := messages_send gmail;
     users_getProfile := users_getProfile gmail |}.

(** A mail service whose messages carry no [From] header. *)
Definition gmail_anonymous : Service :=
  {| messages_list := messages_list gmail;
     messages_get := fun _ _ =>
       Return {| payload_headers := [hdr "Subject" "Hello"];
                 sizeEstimate := Some 10 |};
     messages_send := messages_send gmail;
     users_getProfile := users_getProfile gmail |}.

(** A library whose date arithmetic overflows as [timedelta] does. *)
Definition lib_strict : Library :=
  {| window_query := fun days =>
       if Z.abs days <=? 999999999 then window_query lib days
       else Raise (Exception "days=1000000000; must have magnitude <= 999999999");
     strptime_hour := fixed_layout_hour;
     mime_raw := mime_raw lib |}.

(** A platform on which stored credentials are valid, and one on which
    the refresh of an expired credential is refused. *)
Definition platform_valid : Platform :=
  {| oauth_fetch_token := oauth_fetch_token platform;
     oauth_authorization_url := oauth_authorization_url platform;
     cred_valid := fun _ => true;
     cred_expired := fun _ => false;
     cred_refresh := cred_refresh platform;
     build := build platform;
     http_exception_str := http_exception_str platform;
     stdlib := lib |}.

Definition platform_revoked : Platform :=
  {| oauth_fetch_token := oauth_fetch_token platform;
     oauth_authorization_url := oauth_authorization_url platform;
     cred_valid := fun _ => false;
     cred_expired := fun _ => true;
     cred_refresh := fun _ _ =>
       Raise (Exception "invalid_grant: Token has been expired or revoked.");
     build := build platform;
     http_exception_str := http_exception_str platform;
     stdlib := lib |}.

(** A platform on which the mail client cannot be built. *)
Definition platform_offline : Platform :=
  {| oauth_fetch_token := oauth_fetch_token platform;
     oauth_authorization_url := oauth_authorization_url platform;
     cred_valid := fun _ => true;
     cred_expired := fun _ => false;
     cred_refresh := cred_refresh platform;
     build := fun _ => Raise (Exception "Unable to fetch the discovery document");
     http_exception_str := http_exception_str platform;
     stdlib := lib |}.

End Demo.

(** * Properties *)

Import GmailUtils.

(** ** Vocabulary of the statements *)

Definition bucket_total (d : SizeDistribution) : Z := small d + medium d + large d.

(** The values of the headers called [n], in the order of the message. *)
Definition header_values (n : string) (hs : list Header) : list string :=
  header_value <$> filter (fun h => header_name h = n) hs.

(** The header the scanning loops retain: the last one called [n]. *)
Definition last_header (n : string) (hs : list Header) : option string :=
  last (header_values n hs).

Definition hours_in_range (td : gmap Z Z) : Prop :=
  forall k, is_Some (td !! k) -> 0 <= k <= 23.

(** The remote side returns at most [maxResults] identifiers per page. *)
Definition honours_maxResults (s : Service) : Prop :=
  forall h q n r,
    messages_list s h q n = Return r ->
    Z.of_nat (length (default [] (messages r))) <= n.

Definition count_ge (a b : SenderCount) : Prop := count b <= count a.

(** The stored dictionary [td] carries the six entries of [c]. *)
Definition holds_credential (td : gmap string PyVal) (c : Main.Credentials) : Prop :=
  td !! "token" = Some (Main.token c) /\
  td !! "refresh_token" = Some (Main.refresh_token c) /\
  td !! "token_uri" = Some (Main.token_uri c) /\
  td !! "client_id" = Some (Main.client_id c) /\
  td !! "client_secret" = Some (Main.client_secret c) /\
  td !! "scopes" = Some (Main.scopes c).

(** [sum(d.values())] for an insertion-ordered dictionary. *)
Definition od_total (d : list (string * Z)) : Z :=
  foldr (fun x acc => snd x + acc) 0 d.

(** Every value of the dictionary lies between [lo] and [hi]. *)
Definition counts_between `{Countable K} (lo hi : Z) (d : gmap K Z) : Prop :=
  forall k v, d !! k = Some v -> lo <= v <= hi.

(** The token store holds nothing but complete credentials, under the
    placeholder user. *)
Definition store_well_formed (st : Main.AppState) : Prop :=
  forall user td,
    Main.tokens st !! user = Some td ->
    user = "current_user" /\ exists c, holds_credential td c.

(** [d.get(k, 0)] for an insertion-ordered dictionary. *)
Fixpoint od_get (k : string) (d : list (string * Z)) : Z :=
  match d with
  | [] => 0
  | (k', c) :: d' => if String.eqb k' k then c else od_get k d'
  end.

(** A header value that counts: present and not empty. *)
Definition counted (o : option string) : option string :=
  match o with
  | Some s => if String.eqb s "" then None else Some s
  | None => None
  end.

(** The sender, the subject and the hour under which a message counts. *)
Definition message_sender (msg : Message) : option string :=
  counted (last_header "From" (payload_headers msg)).

Definition message_subject (msg : Message) : option string :=
  counted (last_header "Subject" (payload_headers msg)).

Definition message_hour (lib : Library) (msg : Message) : option Z :=
  match counted (last_header "Date" (payload_headers msg)) with
  | Some d => strptime_hour lib d
  | None => None
  end.

(** How many of the messages satisfy [P]. *)
Definition how_many (P : Message -> Prop) `{forall m, Decision (P m)}
    (l : list Message) : Z :=
  Z.of_nat (length (filter P l)).

(** [fetched] are answers of the mail service for the listed messages,
    one each, in order. *)
Definition fetched_by (s : Service) (msgs : list MessageRef)
    (fetched : list Message) : Prop :=
  Forall2 (fun r msg => exists h, messages_get s h (msg_id r) = Return msg)
          msgs fetched.

Definition as_sender_count (x : string * Z) : SenderCount :=
  {| sender := fst x; count := snd x |}.

(** The state of the report after [n] messages. *)
Definition report_after (n : Z) (m : Metrics) : Prop :=
  NoDup (senders m).*1 /\
  Forall (fun x => fst x <> "" /\ 1 <= snd x) (senders m) /\
  od_total (senders m) <= n /\
  bucket_total (email_size_distribution m) = n /\
  counts_between 1 n (subjects m) /\
  counts_between 1 n (time_distribution m).

Ltac size_cases size :=
  unfold size_bucket;
  destruct (Z.ltb_spec size (1024 * 1024));
  [ | destruct (Z.ltb_spec size (5 * 1024 * 1024)) ];
  split; intros; try discriminate; try reflexivity; lia.

(** ** Size buckets (lines 74-81 of [gmail_utils.py]) *)

Lemma size_bucket_small size : size_bucket size = Small <-> size < 1048576.
Proof. size_cases size. Qed.

Lemma size_bucket_medium size :
  size_bucket size = Medium <-> 1048576 <= size < 5242880.
Proof. size_cases size. Qed.

Lemma size_bucket_large size : size_bucket size = Large <-> 5242880 <= size.
Proof. size_cases size. Qed.

(** C2 (the code at the boundary): a size estimate of exactly 5 MiB
    (5,242,880) is counted as [large], while 1,048,575 is small, 1,048,576
    is medium and 5,242,881 is large; a message of exactly 5 MiB adds one to
    [large] and nothing to [medium]; every message increments exactly one of
    the three counters, by one. *)
Theorem size_bucket_boundaries :
  size_bucket 1048575 = Small /\
  size_bucket 1048576 = Medium /\
  size_bucket 5242880 = Large /\
  size_bucket 5242881 = Large /\
  (forall lib headers metrics,
      let msg := {| payload_headers := headers; sizeEstimate := Some 5242880 |} in
      let d := email_size_distribution metrics in
      let d' := email_size_distribution (account lib msg metrics) in
      medium d' = medium d /\ large d' = large d + 1) /\
  (forall lib msg metrics,
      let d := email_size_distribution metrics in
      let d' := email_size_distribution (account lib msg metrics) in
      bucket_total d' = bucket_total d + 1 /\
      ((small d' = small d + 1 /\ medium d' = medium d /\ large d' = large d) \/
       (small d' = small d /\ medium d' = medium d + 1 /\ large d' = large d) \/
       (small d' = small d /\ medium d' = medium d /\ large d' = large d + 1))).
Proof.
  repeat split; try reflexivity.
  - unfold account. by destruct (scan_headers _) as [[? ?] ?].
  - unfold account. by destruct (scan_headers _) as [[? ?] ?].
  - unfold account. destruct (scan_headers _) as [[? ?] ?]. cbn.
    destruct (size_bucket _); unfold bucket_total; cbn; lia.
  - unfold account. destruct (scan_headers _) as [[? ?] ?]. cbn.
    destruct (size_bucket _); cbn; intuition lia.
Qed.

(** ** The header loops retain the last header of each name *)

Lemma header_values_snoc n hs h :
  header_values n (hs ++ [h]) =
  header_values n hs ++ (if String.eqb (header_name h) n then [header_value h] else []).
Proof.
  unfold header_values. rewrite filter_app, fmap_app. f_equal.
  rewrite filter_cons, filter_nil.
  destruct (String.eqb_spec (header_name h) n); case_decide; done.
Qed.

Lemma last_header_snoc n hs h :
  last_header n (hs ++ [h]) =
  if String.eqb (header_name h) n then Some (header_value h) else last_header n hs.
Proof.
  unfold last_header. rewrite header_values_snoc.
  destruct (String.eqb _ n).
  - apply last_snoc.
  - by rewrite app_nil_r.
Qed.

Lemma scan_headers_spec hs :
  scan_headers hs =
  (last_header "Date" hs, last_header "From" hs, last_header "Subject" hs).
Proof.
  unfold scan_headers.
  induction hs as [|h hs IH] using rev_ind; [done|].
  rewrite fold_left_app, IH, !last_header_snoc.
  simpl fold_left. unfold scan_header.
  destruct (String.eqb_spec (header_name h) "From") as [He|]; [by rewrite ?He|].
  destruct (String.eqb_spec (header_name h) "Subject") as [He|]; [by rewrite ?He|].
  destruct (String.eqb_spec (header_name h) "Date") as [He|]; by rewrite ?He.
Qed.

Lemma scan_reply_headers_spec hs :
  scan_reply_headers hs =
  (last_header "From" hs, reply_subject <$> last_header "Subject" hs,
   last_header "Subject" hs).
Proof.
  unfold scan_reply_headers.
  induction hs as [|h hs IH] using rev_ind; [done|].
  rewrite fold_left_app, IH, !last_header_snoc.
  simpl fold_left. unfold scan_reply_header.
  destruct (String.eqb_spec (header_name h) "From") as [He|]; [by rewrite ?He|].
  destruct (String.eqb_spec (header_name h) "Subject") as [He|]; by rewrite ?He.
Qed.

(** ** The aggregation loop *)

Section Loop.
Variable lib : Library.
Variable self : GmailAnalytics.

Lemma account_total msg metrics :
  total_emails (account lib msg metrics) = total_emails metrics.
Proof. unfold account. by destruct (scan_headers _) as [[? ?] ?]. Qed.

Lemma account_time_distribution msg metrics :
  time_distribution (account lib msg metrics) =
  count_hour lib (last_header "Date" (payload_headers msg))
             (time_distribution metrics).
Proof. unfold account. by rewrite scan_headers_spec. Qed.

Lemma for_messages_cons message rest metrics h msg :
  messages_get (service self) h (msg_id message) = Return msg ->
  for_messages lib self (message :: rest) metrics h =
  for_messages lib self rest (account lib msg metrics)
               (h ++ [CallGet (msg_id message)]).
Proof. intros Hget. cbn. unfold bind, remote. by rewrite Hget. Qed.

(** A run of the loop that returns has fetched every listed message, in
    order, and nothing else. *)
Lemma for_messages_returns msgs : forall metrics h metrics' h',
  for_messages lib self msgs metrics h = (Return metrics', h') ->
  h' = h ++ ((fun r => CallGet (msg_id r)) <$> msgs) /\
  total_emails metrics' = total_emails metrics.
Proof.
  induction msgs as [|message rest IH]; intros metrics h metrics' h' Hrun.
  - cbn in Hrun. injection Hrun as <- <-. by rewrite app_nil_r.
  - cbn in Hrun. unfold bind, remote in Hrun.
    destruct (messages_get _ h _) as [msg|e]; [|discriminate].
    apply IH in Hrun as [-> ->]. split.
    + by rewrite <- app_assoc.
    + apply account_total.
Qed.

(** Any property of the report that every message preserves holds of
    the report the loop returns. *)
Lemma for_messages_invariant (Inv : Metrics -> Prop) :
  (forall msg metrics, Inv metrics -> Inv (account lib msg metrics)) ->
  forall msgs metrics h metrics' h',
    Inv metrics ->
    for_messages lib self msgs metrics h = (Return metrics', h') ->
    Inv metrics'.
Proof.
  intros Hstep msgs.
  induction msgs as [|message rest IH]; intros metrics h metrics' h' Hinv Hrun.
  - cbn in Hrun. by injection Hrun as <- <-.
  - cbn in Hrun. unfold bind, remote in Hrun.
    destruct (messages_get _ h _) as [msg|e]; [|discriminate].
    eapply IH; [|exact Hrun]. by apply Hstep.
Qed.

(** What a returning run of [get_email_metrics] went through. *)
Lemma get_email_metrics_returns days h metrics h' :
  get_email_metrics lib self days h = (Return metrics, h') ->
  exists query results,
    window_query lib days = Return query /\
    messages_list (service self) h query 500 = Return results /\
    for_messages lib self (default [] (messages results))
      (initial_metrics (default [] (messages results)))
      (h ++ [CallList query 500]) = (Return metrics, h').
Proof.
  unfold get_email_metrics, bind, lift, try_reraise, remote. intros Hrun.
  destruct (window_query lib days) as [query|e]; [|discriminate].
  destruct (messages_list _ h query 500) as [results|e] eqn:Hlist;
    [|discriminate].
  exists query, results. repeat split; [done|].
  destruct (for_messages _ _ _ _ _) as [[m|e] h'']; [done|discriminate].
Qed.

End Loop.

(** ** [total_emails] (lines 20-29) *)

(** C6: a report returned by [get_email_metrics] comes from exactly one
    list call, issued with [maxResults=500]; its [total_emails] is the
    number of message identifiers in that result, and is at most 500 when
    the remote side honours [maxResults]. *)
Theorem total_emails_counts_listed_ids lib self days h metrics h' :
  honours_maxResults (service self) ->
  get_email_metrics lib self days h = (Return metrics, h') ->
  exists query results,
    window_query lib days = Return query /\
    messages_list (service self) h query 500 = Return results /\
    total_emails metrics = Z.of_nat (length (default [] (messages results))) /\
    total_emails metrics <= 500 /\
    h' = h ++ CallList query 500
           :: ((fun r => CallGet (msg_id r)) <$> default [] (messages results)).
Proof.
  intros Hmax Hrun.
  apply get_email_metrics_returns in Hrun as (query & results & Hq & Hlist & Hloop).
  apply for_messages_returns in Hloop as [-> Htotal].
  exists query, results. cbn in Htotal.
  repeat split; try done.
  - rewrite Htotal. by eapply Hmax.
  - by rewrite <- app_assoc.
Qed.

(** ** [time_distribution] (lines 66-72) *)

Lemma hours_in_range_empty : hours_in_range ∅.
Proof. intros k [v Hv]. by rewrite lookup_empty in Hv. Qed.

Lemma hours_in_range_incr hour td :
  0 <= hour <= 23 -> hours_in_range td -> hours_in_range (incr hour td).
Proof.
  intros Hhour Htd k. unfold incr. rewrite lookup_insert.
  case_decide as Hk; [by subst|]. apply Htd.
Qed.

Lemma count_hour_in_range lib date td :
  (forall d hour, strptime_hour lib d = Some hour -> 0 <= hour <= 23) ->
  hours_in_range td -> hours_in_range (count_hour lib date td).
Proof.
  intros Hrange Htd. unfold count_hour.
  destruct (truthy_str date); [|done].
  destruct date as [d|]; [|done].
  destruct (strptime_hour lib d) as [hour|] eqn:Hparse; [|done].
  apply hours_in_range_incr; eauto.
Qed.

Lemma count_hour_unparsed lib d td :
  strptime_hour lib d = None -> count_hour lib (Some d) td = td.
Proof. intros Hparse. unfold count_hour. rewrite Hparse. by destruct (truthy_str _). Qed.

(** ** [get_top_senders] (lines 88-99) *)

Lemma insert_desc_Forall (Q : string * Z -> Prop) x l :
  Q x -> Forall Q l -> Forall Q (insert_desc x l).
Proof.
  intros Hx Hl. induction Hl as [|y l Hy Hl IH]; cbn.
  - by constructor.
  - destruct (snd x <? snd y); repeat constructor; auto.
Qed.

Lemma insert_desc_sorted x l :
  StronglySorted (fun a b => snd b <= snd a) l ->
  StronglySorted (fun a b => snd b <= snd a) (insert_desc x l).
Proof.
  induction 1 as [|y l Hl IH Hy]; cbn.
  - repeat constructor.
  - destruct (Z.ltb_spec (snd x) (snd y)).
    + constructor; [exact IH|]. apply insert_desc_Forall; [lia|done].
    + constructor; [by constructor|].
      constructor; [done|]. eapply Forall_impl; [exact Hy|]. cbn. intros; lia.
Qed.

Lemma sorted_desc_sorted items :
  StronglySorted (fun a b => snd b <= snd a) (sorted_desc items).
Proof.
  induction items as [|x items IH]; cbn.
  - constructor.
  - by apply insert_desc_sorted.
Qed.

Lemma StronglySorted_fmap_inv {A B} (R : B -> B -> Prop) (f : A -> B) l :
  StronglySorted (fun a b => R (f a) (f b)) l -> StronglySorted R (f <$> l).
Proof.
  induction 1 as [|x l Hl IH Hx]; cbn; constructor; [done|].
  by apply Forall_fmap.
Qed.

Lemma top_senders_spec d :
  (length (top_senders d) <= 10)%nat /\ StronglySorted count_ge (top_senders d).
Proof.
  unfold top_senders. split.
  - rewrite length_map, length_take. lia.
  - apply (StronglySorted_fmap_inv count_ge). unfold count_ge. cbn.
    eapply StronglySorted_app_1_l. rewrite take_drop. apply sorted_desc_sorted.
Qed.

(** C7: whatever [days] is, a list returned by [get_top_senders] has at
    most 10 entries and is sorted by count, descending. *)
Theorem top_senders_at_most_ten_sorted lib self days h top h' :
  get_top_senders lib self days h = (Return top, h') ->
  (length top <= 10)%nat /\ StronglySorted count_ge top.
Proof.
  unfold get_top_senders, bind, ret. intros Hrun.
  destruct (get_email_metrics lib self days h) as [[metrics|e] h1];
    [|discriminate].
  injection Hrun as <- <-. apply top_senders_spec.
Qed.

(** ** Reply subject (lines 144-152) *)

Lemma startswith_spec s p : startswith s p = true <-> exists t, s = p +:+ t.
Proof.
  unfold startswith. revert s.
  induction p as [|a p IH]; intros s.
  - split; [by exists s|]. by destruct s.
  - destruct s as [|b s]; cbn.
    + split; [done|]. intros [t Ht].
      change ("" = String a (p +:+ t)) in Ht. discriminate.
    + destruct (ascii_dec a b) as [->|Hab].
      * rewrite IH. split; intros [t Ht]; exists t.
        -- change (String b s = String b (p +:+ t)). by rewrite Ht.
        -- change (String b s = String b (p +:+ t)) in Ht. congruence.
      * split; [done|]. intros [t Ht].
        change (String b s = String a (p +:+ t)) in Ht. congruence.
Qed.

Lemma reply_subject_truthy s : truthy_str (Some (reply_subject s)) = true.
Proof.
  unfold reply_subject.
  destruct (startswith s "Re: ") eqn:Hs; cbn; [|done].
  apply startswith_spec in Hs as [t ->]. done.
Qed.

(** C5: the reply subject is the original subject prefixed with ["Re: "]
    unless the original already begins with exactly ["Re: "], in which case
    it is kept; ["Hello"] gives ["Re: Hello"], ["Re: Hello"] stays, and
    ["RE: Hello"] gives ["Re: RE: Hello"]; and this is the subject under which
    [reply_to_email] sends its reply to the original sender. *)
Theorem reply_subject_derivation :
  (forall t, reply_subject ("Re: " +:+ t) = "Re: " +:+ t) /\
  (forall s, ~ (exists t, s = "Re: " +:+ t) -> reply_subject s = "Re: " +:+ s) /\
  reply_subject "Hello" = "Re: Hello" /\
  reply_subject "Re: Hello" = "Re: Hello" /\
  reply_subject "RE: Hello" = "Re: RE: Hello" /\
  (forall lib self message_id reply_body h original s f,
      messages_get (service self) h message_id = Return original ->
      last_header "Subject" (payload_headers original) = Some s ->
      last_header "From" (payload_headers original) = Some f ->
      f <> "" ->
      reply_to_email lib self message_id reply_body h =
      try_reraise "Error replying to email: "
        (send_email lib self f (reply_subject s) reply_body)
        (h ++ [CallGet message_id])).
Proof.
  split; [|split; [|repeat split; try reflexivity]].
  - intros t. unfold reply_subject.
    assert (startswith ("Re: " +:+ t) "Re: " = true) as ->; [|done].
    apply startswith_spec. by exists t.
  - intros s Hs. unfold reply_subject.
    destruct (startswith s "Re: ") eqn:Hp; [|done].
    by apply startswith_spec in Hp.
  - intros lib self message_id reply_body h original s f Hget Hs Hf Hne.
    unfold reply_to_email, try_reraise, bind, remote. rewrite Hget.
    rewrite scan_reply_headers_spec, Hs, Hf. cbn [fmap option_fmap option_map].
    rewrite reply_subject_truthy.
    assert (truthy_str (Some f) = true) as ->; [|done].
    cbn. by destruct (String.eqb_spec f "").
Qed.

(** ** [send_email] (lines 106-127, and the endpoint at lines 190-203) *)

Lemma send_email_unfold lib self to subject body h raw :
  mime_raw lib to subject body = Return raw ->
  send_email lib self to subject body h =
  (match messages_send (service self) h raw with
   | Return r => Return {| message_id := sent_id r; status := "sent" |}
   | Raise e => Raise (Exception ("Error sending email: " +:+ str e))
   end, h ++ [CallSend raw]).
Proof.
  intros Hraw. unfold send_email, try_reraise, bind, lift, remote, ret.
  rewrite Hraw. by destruct (messages_send _ h _).
Qed.

Lemma send_email_unencodable lib self to subject body h e :
  mime_raw lib to subject body = Raise e ->
  send_email lib self to subject body h =
  (Raise (Exception ("Error sending email: " +:+ str e)), h).
Proof.
  intros Hraw. unfold send_email, try_reraise, bind, lift. by rewrite Hraw.
Qed.

(** C9 (as the code has it): [send_email] does not look at the
    recipient.  With an empty recipient, whenever the message can be encoded
    it is handed to the remote send call, and the call then raises exactly
    when that remote call does; when the encoding step raises, the call
    raises with the prefix ["Error sending email: "] and no remote call is
    made.  The endpoint behaves the same once the credential is resolved and
    the client built. *)
Theorem send_email_forwards_empty_recipient :
  (forall lib self subject body h raw,
      mime_raw lib "" subject body = Return raw ->
      send_email lib self "" subject body h =
      (match messages_send (service self) h raw with
       | Return r => Return {| message_id := sent_id r; status := "sent" |}
       | Raise e => Raise (Exception ("Error sending email: " +:+ str e))
       end, h ++ [CallSend raw])) /\
  (forall lib self subject body h e,
      mime_raw lib "" subject body = Raise e ->
      send_email lib self "" subject body h =
      (Raise (Exception ("Error sending email: " +:+ str e)), h)) /\
  (forall P subject body st credentials st1 svc raw,
      Main.get_credentials P st = (Return credentials, st1) ->
      Main.build P credentials = Return svc ->
      mime_raw (Main.stdlib P) "" subject body = Return raw ->
      Main.send_email P
        {| Main.to := ""; Main.subject := subject; Main.body := body |} st =
      (match messages_send svc (Main.calls st1) raw with
       | Return r =>
           Return (Main.JSONSent {| message_id := sent_id r; status := "sent" |})
       | Raise e =>
           Raise {| Main.status_code := 500;
                    Main.detail :=
                      "Error sending email: " +:+
                      ("Error sending email: " +:+ str e) |}
       end,
       Main.set_calls (Main.calls st1 ++ [CallSend raw]) st1)).
Proof.
  split_and!.
  - intros. by apply send_email_unfold.
  - intros. by apply send_email_unencodable.
  - intros P subject body st credentials st1 svc raw Hcred Hbuild Hraw.
    unfold Main.send_email, Main.Depends. rewrite Hcred.
    unfold Main.try_http, Main.bbind, Main.new_GmailAnalytics, Main.bbind,
      Main.build_service, Main.run_remote, Main.bret.
    rewrite Hbuild. cbn [Main.to Main.subject Main.body].
    rewrite (send_email_unfold _ _ _ _ _ _ raw Hraw). cbn [service].
    by destruct (messages_send svc _ _).
Qed.

(** ** The token store and credential resolution ([main.py], lines 65-125) *)

Section Credentials.
Import Main.
Variable P : Platform.

Lemma holds_credential_token_data_of c : holds_credential (token_data_of c) c.
Proof. unfold holds_credential, token_data_of. repeat split; by simplify_map_eq. Qed.

Lemma holds_credential_nonempty td c : holds_credential td c -> td <> ∅.
Proof. intros [Htoken _] ->. by rewrite lookup_empty in Htoken. Qed.

Lemma recreate_credentials_holds td c st :
  holds_credential td c -> recreate_credentials td st = (Return c, st).
Proof.
  intros (H1 & H2 & H3 & H4 & H5 & H6).
  unfold recreate_credentials, bbind, getitem, bret.
  rewrite H1, H2, H3, H4, H5, H6. cbn. by destruct c.
Qed.

(** The body of [get_credentials] once the stored dictionary is found. *)
Lemma get_credentials_stored st td c :
  tokens st !! "current_user" = Some td ->
  holds_credential td c ->
  get_credentials P st =
  try_http P 401 "Invalid credentials: "
    (if negb (cred_valid P c) then
       if cred_expired P c && truthy (refresh_token c) then
         bbind (refresh P c) (fun c' =>
         bbind (store_token (token c')) (fun _ => bret c'))
       else bret c
     else bret c) st.
Proof.
  intros Hstored Hc. unfold get_credentials, try_http. rewrite Hstored.
  rewrite bool_decide_eq_false_2 by by eapply holds_credential_nonempty.
  unfold bbind at 1. by rewrite (recreate_credentials_holds td c).
Qed.

End Credentials.

(** C1 (as the code has it): for a stored credential that is expired and
    has no refresh token, credential resolution attempts no refresh and
    returns the credential as stored, leaving the store and the call history
    untouched; it does the same whenever the token is not expired. *)
Theorem get_credentials_returns_stored P st td c :
  Main.tokens st !! "current_user" = Some td ->
  holds_credential td c ->
  Main.cred_expired P c = false \/ truthy (Main.refresh_token c) = false ->
  Main.get_credentials P st = (Return c, st).
Proof.
  intros Hstored Hc Hcase.
  rewrite (get_credentials_stored P st td c Hstored Hc).
  unfold Main.try_http.
  destruct (negb (Main.cred_valid P c)); [|done].
  destruct Hcase as [-> | ->]; [done|].
  by rewrite andb_false_r.
Qed.

(** C10: when credential resolution refreshes an expired credential that
    has a refresh token, the stored dictionary changes at its ['token'] entry
    only: [refresh_token], [token_uri], [client_id], [client_secret] and
    [scopes] keep the values they had, as does every other entry of the
    store. *)
Theorem refresh_replaces_only_token P st td c c' :
  Main.tokens st !! "current_user" = Some td ->
  holds_credential td c ->
  Main.cred_valid P c = false ->
  Main.cred_expired P c = true ->
  truthy (Main.refresh_token c) = true ->
  Main.cred_refresh P (Main.calls st) c = Return c' ->
  exists st' td',
    Main.get_credentials P st = (Return c', st') /\
    Main.tokens st' !! "current_user" = Some td' /\
    td' !! "token" = Some (Main.token c') /\
    (forall k, k <> "token" -> td' !! k = td !! k) /\
    td' !! "refresh_token" = Some (Main.refresh_token c) /\
    td' !! "token_uri" = Some (Main.token_uri c) /\
    td' !! "client_id" = Some (Main.client_id c) /\
    td' !! "client_secret" = Some (Main.client_secret c) /\
    td' !! "scopes" = Some (Main.scopes c) /\
    (forall user, user <> "current_user" ->
                  Main.tokens st' !! user = Main.tokens st !! user).
Proof.
  intros Hstored Hc Hvalid Hexpired Hrefresh Hcall.
  rewrite (get_credentials_stored P st td c Hstored Hc).
  rewrite Hvalid, Hexpired, Hrefresh. cbn [negb andb].
  unfold Main.try_http, Main.bbind, Main.refresh, Main.store_token, Main.bret.
  rewrite Hcall. cbn [Main.tokens Main.set_calls]. rewrite Hstored.
  destruct Hc as (H1 & H2 & H3 & H4 & H5 & H6).
  eexists _, (<["token" := Main.token c']> td).
  split; [reflexivity|]. cbn [Main.tokens Main.set_tokens].
  repeat split.
  - by rewrite lookup_insert_eq.
  - by rewrite lookup_insert_eq.
  - intros k Hk. by rewrite lookup_insert_ne.
  - by rewrite lookup_insert_ne.
  - by rewrite lookup_insert_ne.
  - by rewrite lookup_insert_ne.
  - by rewrite lookup_insert_ne.
  - by rewrite lookup_insert_ne.
  - intros user Huser. by rewrite lookup_insert_ne.
Qed.

(** ** Endpoints *)

(** C8: with no credential stored, [GET /api/verify-token] is answered
    with status 401; the state, and with it the history of remote calls, is
    left as it was. *)
Theorem verify_token_without_credential P st ps :
  Main.tokens st !! "current_user" = None ->
  Main.serve P {| Main.method := "GET"; Main.path := "/api/verify-token";
                  Main.params := ps |} st =
  (Raise {| Main.status_code := 401;
            Main.detail :=
              "Invalid credentials: " +:+
              Main.http_exception_str P
                {| Main.status_code := 401;
                   Main.detail := "No credentials found" |} |}, st) /\
  Main.response_status
    (fst (Main.serve P {| Main.method := "GET"; Main.path := "/api/verify-token";
                          Main.params := ps |} st)) = 401.
Proof.
  intros Hnone.
  assert (Main.verify_token P st =
          (Raise {| Main.status_code := 401;
                    Main.detail :=
                      "Invalid credentials: " +:+
                      Main.http_exception_str P
                        {| Main.status_code := 401;
                           Main.detail := "No credentials found" |} |}, st))
    as Hverify.
  { unfold Main.verify_token, Main.Depends, Main.get_credentials, Main.try_http.
    by rewrite Hnone. }
  assert (Main.serve P {| Main.method := "GET"; Main.path := "/api/verify-token";
                          Main.params := ps |} = Main.verify_token P) as ->
    by by destruct ps.
  by rewrite Hverify.
Qed.

(** C3: [GET /auth/google/callback] with a code is served by the handler
    registered first.  If the exchange succeeds, the credential is stored
    under ['current_user'] and the body carries [access_token] and
    [refresh_token]; if it fails, the answer is a 400 whose message is
    ["Error during authentication: "] followed by the text of the failure,
    and the store is unchanged. *)
Theorem callback_exchanges_and_stores P code st :
  match Main.oauth_fetch_token P (Main.calls st) code with
  | Return c =>
      exists content st',
        Main.serve P {| Main.method := "GET"; Main.path := "/auth/google/callback";
                        Main.params := Main.QueryCode code |} st =
        (Return (Main.JSONDict content), st') /\
        content !! "access_token" = Some (Main.token c) /\
        content !! "refresh_token" = Some (Main.refresh_token c) /\
        Main.tokens st' !! "current_user" = Some (Main.token_data_of c) /\
        holds_credential (Main.token_data_of c) c
  | Raise e =>
      exists st',
        Main.serve P {| Main.method := "GET"; Main.path := "/auth/google/callback";
                        Main.params := Main.QueryCode code |} st =
        (Raise {| Main.status_code := 400;
                  Main.detail := "Error during authentication: " +:+ str e |},
         st') /\
        Main.tokens st' = Main.tokens st
  end.
Proof.
  change (Main.serve P {| Main.method := "GET"; Main.path := "/auth/google/callback";
                          Main.params := Main.QueryCode code |})
    with (Main.google_auth_callback P code).
  unfold Main.google_auth_callback, Main.try_http, Main.bbind,
    Main.fetch_token_credentials.
  destruct (Main.oauth_fetch_token P (Main.calls st) code) as [c|e].
  - eexists _, _. split; [reflexivity|]. cbn [Main.tokens Main.set_tokens].
    split; [by simplify_map_eq|]. split; [by simplify_map_eq|].
    split; [by simplify_map_eq|]. apply holds_credential_token_data_of.
  - eexists. split; reflexivity.
Qed.

(** ** The model on a concrete mailbox and platform *)

Lemma digit_of_range a x : Demo.digit_of a = Some x -> 0 <= x <= 9.
Proof.
  unfold Demo.digit_of.
  destruct (Z.leb_spec 48 (Z.of_N (N_of_ascii a)));
    destruct (Z.leb_spec (Z.of_N (N_of_ascii a)) 57); cbn; intros [= <-]; lia.
Qed.

Lemma fixed_layout_hour_range date hour :
  Demo.fixed_layout_hour date = Some hour -> 0 <= hour <= 23.
Proof.
  unfold Demo.fixed_layout_hour.
  destruct (String.get 17 date) as [a|]; [|done].
  destruct (String.get 18 date) as [b|]; [|done].
  destruct (String.get 19 date) as [c|]; [|done].
  destruct (Demo.digit_of a) as [x|] eqn:Hx; [|done].
  destruct (Demo.digit_of b) as [y|] eqn:Hy; [|done].
  apply digit_of_range in Hx, Hy.
  destruct (c =? ":")%char; [|done].
  destruct (Z.leb_spec (10 * x + y) 23); cbn; intros [= <-]; lia.
Qed.

Lemma demo_gmail_honours_maxResults : honours_maxResults Demo.gmail.
Proof.
  intros h q n r. cbn.
  destruct (Z.ltb_spec n 0); intros [= <-]. cbn.
  rewrite length_take. lia.
Qed.

Example demo_get_email_metrics :
  get_email_metrics Demo.lib Demo.analytics 30 [] =
  (Return Demo.report, Demo.history).
Proof. vm_compute. reflexivity. Qed.

Example demo_get_top_senders :
  get_top_senders Demo.lib Demo.analytics 30 [] = (Return Demo.top, Demo.history).
Proof. vm_compute. reflexivity. Qed.

Example demo_reply_to_email :
  reply_to_email Demo.lib Demo.analytics "m3" "Thanks" [] =
  (Return {| message_id := "sent-1"; status := "sent" |},
   [CallGet "m3";
    CallSend "to=bob@example.com;subject=Re: RE: Hello;body=Thanks"]).
Proof. vm_compute. reflexivity. Qed.

Example demo_callback_then_verify :
  let callback := {| Main.method := "GET"; Main.path := "/auth/google/callback";
                     Main.params := Main.QueryCode "good" |} in
  let verify := {| Main.method := "GET"; Main.path := "/api/verify-token";
                   Main.params := Main.NoParams |} in
  let st1 := snd (Main.serve Demo.platform callback Demo.empty_state) in
  Main.tokens st1 !! "current_user" =
    Some (Main.token_data_of Demo.stored_refreshable) /\
  Main.response_status (fst (Main.serve Demo.platform verify st1)) = 200 /\
  Main.calls (snd (Main.serve Demo.platform verify st1)) =
    [CallFetchToken "good"; CallRefresh; CallGetProfile].
Proof. vm_compute. repeat split. Qed.

(** ** Witnesses *)

Lemma total_emails_counts_listed_ids_witness :
  exists query results,
    window_query Demo.lib 30 = Return query /\
    messages_list Demo.gmail [] query 500 = Return results /\
    total_emails Demo.report = Z.of_nat (length (default [] (messages results))) /\
    total_emails Demo.report <= 500 /\
    Demo.history = [] ++ CallList query 500
           :: ((fun r => CallGet (msg_id r)) <$> default [] (messages results)).
Proof.
  apply (total_emails_counts_listed_ids Demo.lib Demo.analytics 30 []
           Demo.report Demo.history).
  - exact demo_gmail_honours_maxResults.
  - vm_compute. reflexivity.
Defined.

Lemma top_senders_at_most_ten_sorted_witness :
  (length Demo.top <= 10)%nat /\ StronglySorted count_ge Demo.top.
Proof.
  apply (top_senders_at_most_ten_sorted Demo.lib Demo.analytics 30 []
           Demo.top Demo.history).
  vm_compute. reflexivity.
Defined.

Lemma reply_subject_derivation_witness :
  reply_to_email Demo.lib Demo.analytics "m3" "Thanks" [] =
  try_reraise "Error replying to email: "
    (send_email Demo.lib Demo.analytics "bob@example.com"
       (reply_subject "RE: Hello") "Thanks")
    ([] ++ [CallGet "m3"]).
Proof.
  destruct reply_subject_derivation as (_ & _ & _ & _ & _ & Hreply).
  eapply Hreply; [reflexivity | reflexivity | reflexivity | discriminate].
Defined.

Lemma send_email_forwards_empty_recipient_witness :
  let st := Demo.state_with Demo.stored in
  Main.response_status
    (fst (Main.send_email Demo.platform
            {| Main.to := ""; Main.subject := "Hi"; Main.body := "text" |} st))
  = 200 /\
  Main.calls
    (snd (Main.send_email Demo.platform
            {| Main.to := ""; Main.subject := "Hi"; Main.body := "text" |} st))
  = [CallSend "to=;subject=Hi;body=text"].
Proof.
  destruct send_email_forwards_empty_recipient as (_ & _ & Hendpoint).
  cbv zeta.
  rewrite (Hendpoint Demo.platform "Hi" "text" (Demo.state_with Demo.stored)
             Demo.stored (Demo.state_with Demo.stored) Demo.gmail
             "to=;subject=Hi;body=text");
    [ | vm_compute; reflexivity | reflexivity | reflexivity ].
  split; reflexivity.
Defined.

Lemma get_credentials_returns_stored_witness :
  Main.get_credentials Demo.platform (Demo.state_with Demo.stored) =
  (Return Demo.stored, Demo.state_with Demo.stored).
Proof.
  apply (get_credentials_returns_stored Demo.platform
           (Demo.state_with Demo.stored) (Main.token_data_of Demo.stored)).
  - reflexivity.
  - repeat split; reflexivity.
  - right. reflexivity.
Defined.

Lemma refresh_replaces_only_token_witness :
  exists st' td',
    Main.get_credentials Demo.platform (Demo.state_with Demo.stored_refreshable) =
    (Return {| Main.token := PStr "ya29.new";
               Main.refresh_token := PStr "1//rotated";
               Main.token_uri := PStr "https://oauth2.googleapis.com/token";
               Main.client_id := PStr "client";
               Main.client_secret := PStr "secret";
               Main.scopes :=
                 PList ["https://www.googleapis.com/auth/gmail.readonly"] |},
     st') /\
    Main.tokens st' !! "current_user" = Some td' /\
    td' !! "token" = Some (PStr "ya29.new") /\
    td' !! "refresh_token" = Some (PStr "1//refresh").
Proof.
  destruct (refresh_replaces_only_token Demo.platform
              (Demo.state_with Demo.stored_refreshable)
              (Main.token_data_of Demo.stored_refreshable)
              Demo.stored_refreshable
              (Main.Build_Credentials (PStr "ya29.new") (PStr "1//rotated")
                 (PStr "https://oauth2.googleapis.com/token")
                 (PStr "client") (PStr "secret")
                 (PList ["https://www.googleapis.com/auth/gmail.readonly"])))
    as (st' & td' & Hrun & Hstore & Htoken & _ & Hrefresh & _);
    [ reflexivity | repeat split; reflexivity | reflexivity | reflexivity
    | reflexivity | reflexivity | ].
  exists st', td'. repeat split; assumption.
Defined.

Lemma verify_token_without_credential_witness :
  Main.response_status
    (fst (Main.serve Demo.platform
            {| Main.method := "GET"; Main.path := "/api/verify-token";
               Main.params := Main.NoParams |} Demo.empty_state)) = 401.
Proof.
  apply (verify_token_without_credential Demo.platform Demo.empty_state
           Main.NoParams).
  reflexivity.
Defined.

(** ** Where the code departs from the specification *)

(** C1, as the specification words it, fails here: the stored credential
    is expired and has no refresh token, yet credential resolution returns
    it and raises nothing. *)
Lemma get_credentials_expired_without_refresh_token_returns :
  Main.cred_expired Demo.platform Demo.stored = true /\
  Main.refresh_token Demo.stored = PNone /\
  Main.tokens (Demo.state_with Demo.stored) !! "current_user" =
    Some (Main.token_data_of Demo.stored) /\
  Main.get_credentials Demo.platform (Demo.state_with Demo.stored) =
    (Return Demo.stored, Demo.state_with Demo.stored) /\
  ~ (exists e st',
        Main.get_credentials Demo.platform (Demo.state_with Demo.stored) =
        (Raise e, st')).
Proof.
  assert (Main.get_credentials Demo.platform (Demo.state_with Demo.stored) =
          (Return Demo.stored, Demo.state_with Demo.stored)) as Hrun
    by (vm_compute; reflexivity).
  split; [reflexivity|]. split; [reflexivity|]. split; [reflexivity|].
  split; [exact Hrun|].
  intros (e & st' & Hraise). rewrite Hrun in Hraise. discriminate.
Qed.

(** C9, as the specification words it, fails here: with an empty
    recipient and a subject of two lines the encoding step raises, so the
    call fails although the remote send call never fails; it is not even
    made. *)
Lemma send_email_two_line_subject_fails_locally :
  (forall h raw, exists r, messages_send Demo.gmail h raw = Return r) /\
  exists e,
    mime_raw Demo.lib "" Demo.two_line_subject "text" = Raise e /\
    send_email Demo.lib Demo.analytics "" Demo.two_line_subject "text" [] =
    (Raise (Exception ("Error sending email: " +:+ str e)), []).
Proof.
  split.
  - intros h raw. by eexists.
  - eexists. split; reflexivity.
Qed.

(** * Further properties of the code *)

(** ** Failures and edge cases of [get_email_metrics] (lines 12-86) *)

Section MetricsRuns.
Variable lib : Library.
Variable self : GmailAnalytics.

Lemma for_messages_app before after : forall metrics h,
  for_messages lib self (before ++ after) metrics h =
  bind (for_messages lib self before metrics)
       (fun metrics1 => for_messages lib self after metrics1) h.
Proof.
  induction before as [|message before IH]; intros metrics h; [done|].
  cbn. unfold bind, remote. destruct (messages_get _ h _) as [msg|e]; [|done].
  apply IH.
Qed.

Lemma for_messages_total msgs : forall metrics h,
  (forall h' message, message ∈ msgs ->
     exists msg, messages_get (service self) h' (msg_id message) = Return msg) ->
  exists metrics',
    for_messages lib self msgs metrics h =
    (Return metrics', h ++ ((fun r => CallGet (msg_id r)) <$> msgs)).
Proof.
  induction msgs as [|message rest IH]; intros metrics h Hget.
  - exists metrics. cbn. by rewrite app_nil_r.
  - destruct (Hget h message) as [msg Hmsg]; [set_solver|].
    rewrite (for_messages_cons lib self message rest metrics h msg Hmsg).
    destruct (IH (account lib msg metrics) (h ++ [CallGet (msg_id message)]))
      as [metrics' ->]; [intros; apply Hget; set_solver|].
    exists metrics'. by rewrite <- app_assoc.
Qed.

Lemma get_email_metrics_listed days h query results :
  window_query lib days = Return query ->
  messages_list (service self) h query 500 = Return results ->
  get_email_metrics lib self days h =
  try_reraise "Error fetching email metrics: "
    (for_messages lib self (default [] (messages results))
       (initial_metrics (default [] (messages results))))
    (h ++ [CallList query 500]).
Proof.
  intros Hq Hlist.
  unfold get_email_metrics, bind, lift, try_reraise, remote.
  by rewrite Hq, Hlist.
Qed.

End MetricsRuns.

(** X1: a failure of the date arithmetic, which sits before the [try],
    is raised as it is and no remote call is made; a failure of the list
    call is re-raised with the prefix ["Error fetching email metrics: "],
    after that one call and no other. *)
Theorem get_email_metrics_early_failures lib self days h :
  (forall e, window_query lib days = Raise e ->
             get_email_metrics lib self days h = (Raise e, h)) /\
  (forall query e,
      window_query lib days = Return query ->
      messages_list (service self) h query 500 = Raise e ->
      get_email_metrics lib self days h =
      (Raise (Exception ("Error fetching email metrics: " +:+ str e)),
       h ++ [CallList query 500])).
Proof.
  split.
  - intros e He. unfold get_email_metrics, bind, lift. by rewrite He.
  - intros query e Hq He.
    unfold get_email_metrics, bind, lift, try_reraise, remote.
    by rewrite Hq, He.
Qed.

(** X2: if fetching one of the listed messages fails, the run stops
    there: the error is re-raised with the prefix, no report is returned for
    the messages already counted, and the messages after the failing one are
    not fetched. *)
Theorem get_email_metrics_aborts_on_failed_fetch
    lib self days h query results before message after metrics1 h1 e :
  window_query lib days = Return query ->
  messages_list (service self) h query 500 = Return results ->
  default [] (messages results) = before ++ message :: after ->
  for_messages lib self before (initial_metrics (before ++ message :: after))
    (h ++ [CallList query 500]) = (Return metrics1, h1) ->
  messages_get (service self) h1 (msg_id message) = Raise e ->
  get_email_metrics lib self days h =
  (Raise (Exception ("Error fetching email metrics: " +:+ str e)),
   h1 ++ [CallGet (msg_id message)]) /\
  h1 = h ++ CallList query 500 :: ((fun r => CallGet (msg_id r)) <$> before).
Proof.
  intros Hq Hlist Hsplit Hbefore Hget. split.
  - rewrite (get_email_metrics_listed lib self days h query results Hq Hlist).
    rewrite Hsplit. unfold try_reraise.
    rewrite for_messages_app. unfold bind at 1. rewrite Hbefore.
    cbn. unfold bind, remote. by rewrite Hget.
  - apply for_messages_returns in Hbefore as [-> _]. by rewrite <- app_assoc.
Qed.

(** X3: once the window is computed and the list call has answered, the
    only thing that can make [get_email_metrics] raise is a failing message
    fetch: if every listed message can be fetched, a report is returned,
    after one list call and one fetch per listed message, in order. *)
Theorem get_email_metrics_returns_when_fetches_succeed
    lib self days h query results :
  window_query lib days = Return query ->
  messages_list (service self) h query 500 = Return results ->
  (forall h' message, message ∈ default [] (messages results) ->
     exists msg, messages_get (service self) h' (msg_id message) = Return msg) ->
  exists metrics,
    get_email_metrics lib self days h =
    (Return metrics,
     h ++ CallList query 500
       :: ((fun r => CallGet (msg_id r)) <$> default [] (messages results))).
Proof.
  intros Hq Hlist Hget.
  rewrite (get_email_metrics_listed lib self days h query results Hq Hlist).
  destruct (for_messages_total lib self (default [] (messages results))
              (initial_metrics (default [] (messages results)))
              (h ++ [CallList query 500]) Hget) as [metrics Hrun].
  exists metrics. unfold try_reraise. rewrite Hrun. by rewrite <- app_assoc.
Qed.

(** X4: a list result without a ['messages'] entry, or with an empty
    one, gives the all-zero report after the single list call; no message is
    fetched. *)
Theorem get_email_metrics_empty_mailbox lib self days h query results :
  window_query lib days = Return query ->
  messages_list (service self) h query 500 = Return results ->
  messages results = None \/ messages results = Some [] ->
  get_email_metrics lib self days h =
  (Return {| total_emails := 0; senders := []; subjects := ∅;
             time_distribution := ∅;
             email_size_distribution :=
               {| small := 0; medium := 0; large := 0 |} |},
   h ++ [CallList query 500]).
Proof.
  intros Hq Hlist Hempty.
  rewrite (get_email_metrics_listed lib self days h query results Hq Hlist).
  by destruct Hempty as [-> | ->].
Qed.

(** ** What one message adds to the report (lines 47-81) *)

Lemma account_fields lib msg metrics :
  senders (account lib msg metrics) =
    match last_header "From" (payload_headers msg) with
    | Some s => if String.eqb s "" then senders metrics
                else od_incr s (senders metrics)
    | None => senders metrics
    end /\
  subjects (account lib msg metrics) =
    match last_header "Subject" (payload_headers msg) with
    | Some s => if String.eqb s "" then subjects metrics
                else incr s (subjects metrics)
    | None => subjects metrics
    end /\
  time_distribution (account lib msg metrics) =
    match last_header "Date" (payload_headers msg) with
    | Some d =>
        if String.eqb d "" then time_distribution metrics
        else match strptime_hour lib d with
             | Some hour => incr hour (time_distribution metrics)
             | None => time_distribution metrics
             end
    | None => time_distribution metrics
    end.
Proof.
  unfold account. rewrite scan_headers_spec. cbn. unfold count_hour.
  destruct (last_header "From" _) as [s|], (last_header "Subject" _) as [t|],
    (last_header "Date" _) as [d|]; cbn;
    repeat match goal with |- context [String.eqb ?x ""] =>
      destruct (String.eqb x "") end; done.
Qed.

(** X5: a message is counted under its last [From], its last [Subject]
    and its last [Date] header, once each; a header that is absent or empty
    adds nothing, and a date that does not parse adds nothing. *)
Theorem account_counts_last_headers lib msg metrics :
  senders (account lib msg metrics) =
    match last_header "From" (payload_headers msg) with
    | Some s => if String.eqb s "" then senders metrics
                else od_incr s (senders metrics)
    | None => senders metrics
    end /\
  subjects (account lib msg metrics) =
    match last_header "Subject" (payload_headers msg) with
    | Some s => if String.eqb s "" then subjects metrics
                else incr s (subjects metrics)
    | None => subjects metrics
    end /\
  time_distribution (account lib msg metrics) =
    match last_header "Date" (payload_headers msg) with
    | Some d =>
        if String.eqb d "" then time_distribution metrics
        else match strptime_hour lib d with
             | Some hour => incr hour (time_distribution metrics)
             | None => time_distribution metrics
             end
    | None => time_distribution metrics
    end.
Proof. apply account_fields. Qed.

(** ** Invariants of the report *)

Lemma od_incr_keys k d x :
  x ∈ (od_incr k d).*1 <-> x = k \/ x ∈ d.*1.
Proof.
  induction d as [|[k' c] d IH]; cbn.
  - rewrite list_elem_of_singleton, elem_of_nil. tauto.
  - destruct (String.eqb_spec k' k) as [->|Hne]; cbn.
    + rewrite !elem_of_cons. tauto.
    + rewrite !elem_of_cons, IH. tauto.
Qed.

Lemma od_incr_NoDup k d : NoDup d.*1 -> NoDup (od_incr k d).*1.
Proof.
  induction d as [|[k' c] d IH]; cbn; intros Hd.
  - apply NoDup_singleton.
  - apply NoDup_cons in Hd as [Hk' Hd].
    destruct (String.eqb_spec k' k) as [->|Hne]; cbn.
    + by apply NoDup_cons.
    + apply NoDup_cons. split; [|by apply IH].
      rewrite od_incr_keys. intros [?|?]; congruence.
Qed.

Lemma od_incr_total k d : od_total (od_incr k d) = od_total d + 1.
Proof.
  unfold od_total. induction d as [|[k' c] d IH]; cbn; [done|].
  destruct (String.eqb k' k); cbn; [|rewrite IH]; lia.
Qed.

Lemma od_incr_Forall k d :
  k <> "" ->
  Forall (fun x => fst x <> "" /\ 1 <= snd x) d ->
  Forall (fun x => fst x <> "" /\ 1 <= snd x) (od_incr k d).
Proof.
  intros Hk. induction 1 as [|[k' c] d [Hk' Hc] Hd IH]; cbn.
  - by repeat constructor.
  - cbn in Hk', Hc. destruct (String.eqb k' k); constructor; cbn; auto.
    split; [done|lia].
Qed.

Lemma counts_between_incr `{Countable K} (k : K) n d :
  0 <= n -> counts_between 1 n d -> counts_between 1 (n + 1) (incr k d).
Proof.
  intros Hn Hd k' v. unfold incr. rewrite lookup_insert.
  case_decide as Hk.
  - intros [= <-]. destruct (d !! k) as [v0|] eqn:Hv0; cbn; [|lia].
    apply Hd in Hv0. lia.
  - intros Hv. apply Hd in Hv. lia.
Qed.

Lemma counts_between_mono `{Countable K} n (d : gmap K Z) :
  counts_between 1 n d -> counts_between 1 (n + 1) d.
Proof. intros Hd k v Hv. apply Hd in Hv. lia. Qed.

Lemma report_after_account lib n msg m :
  0 <= n -> report_after n m -> report_after (n + 1) (account lib msg m).
Proof.
  intros Hn (Hdup & Hpos & Htotal & Hbuckets & Hsubjects & Htimes).
  unfold report_after.
  destruct (account_fields lib msg m) as (-> & -> & ->).
  split_and!.
  - destruct (last_header "From" _) as [s|]; [|done].
    destruct (String.eqb s ""); [done|]. by apply od_incr_NoDup.
  - destruct (last_header "From" _) as [s|]; [|done].
    destruct (String.eqb_spec s ""); [done|]. by apply od_incr_Forall.
  - destruct (last_header "From" _) as [s|]; [|lia].
    destruct (String.eqb s ""); [lia|]. rewrite od_incr_total. lia.
  - unfold account. destruct (scan_headers _) as [[? ?] ?]. cbn.
    destruct (size_bucket _); unfold bucket_total in *; cbn; lia.
  - destruct (last_header "Subject" _) as [s|]; [|by apply counts_between_mono].
    destruct (String.eqb s ""); [by apply counts_between_mono|].
    by apply counts_between_incr.
  - destruct (last_header "Date" _) as [d|]; [|by apply counts_between_mono].
    destruct (String.eqb d ""); [by apply counts_between_mono|].
    destruct (strptime_hour lib d); [|by apply counts_between_mono].
    by apply counts_between_incr.
Qed.

Lemma for_messages_report_after lib self msgs : forall n metrics h metrics' h',
  0 <= n -> report_after n metrics ->
  for_messages lib self msgs metrics h = (Return metrics', h') ->
  report_after (n + Z.of_nat (length msgs)) metrics'.
Proof.
  induction msgs as [|message rest IH]; intros n metrics h metrics' h' Hn Hinv Hrun.
  - cbn in Hrun. injection Hrun as <- <-. by rewrite Z.add_0_r.
  - cbn [for_messages] in Hrun. unfold bind, remote in Hrun.
    destruct (messages_get _ h _) as [msg|e]; [|discriminate].
    eapply (IH (n + 1)) in Hrun; [| lia | by apply report_after_account].
    replace (n + Z.of_nat (length (message :: rest)))
      with (n + 1 + Z.of_nat (length rest)) by (cbn [length]; lia).
    exact Hrun.
Qed.

Lemma get_email_metrics_report_after lib self days h metrics h' :
  get_email_metrics lib self days h = (Return metrics, h') ->
  report_after (total_emails metrics) metrics.
Proof.
  intros Hrun.
  apply get_email_metrics_returns in Hrun as (query & results & _ & _ & Hloop).
  pose proof (for_messages_returns _ _ _ _ _ _ _ Hloop) as [_ ->].
  apply (for_messages_report_after _ _ _ 0) in Hloop; [done|done|].
  unfold report_after. split_and!; cbn; try done; by constructor.
Qed.

(** X6: in a returned report no sender is listed twice, no listed sender
    is the empty string, every listed count is at least 1, and the counts add
    up to at most [total_emails]. *)
Theorem senders_counts_consistent lib self days h metrics h' :
  get_email_metrics lib self days h = (Return metrics, h') ->
  NoDup (senders metrics).*1 /\
  Forall (fun x => fst x <> "" /\ 1 <= snd x) (senders metrics) /\
  od_total (senders metrics) <= total_emails metrics.
Proof.
  intros Hrun.
  by destruct (get_email_metrics_report_after _ _ _ _ _ _ Hrun) as (? & ? & ? & _).
Qed.

(** X7: in a returned report the three size counters add up to
    [total_emails]: every listed message is in exactly one bucket. *)
Theorem size_distribution_sums_to_total lib self days h metrics h' :
  get_email_metrics lib self days h = (Return metrics, h') ->
  bucket_total (email_size_distribution metrics) = total_emails metrics.
Proof.
  intros Hrun.
  by destruct (get_email_metrics_report_after _ _ _ _ _ _ Hrun)
    as (_ & _ & _ & ? & _).
Qed.

(** X8: in a returned report every subject count and every hour count
    lies between 1 and [total_emails]: no entry with a zero count is ever
    created, and none exceeds the number of listed messages. *)
Theorem subject_and_hour_counts_bounded lib self days h metrics h' :
  get_email_metrics lib self days h = (Return metrics, h') ->
  counts_between 1 (total_emails metrics) (subjects metrics) /\
  counts_between 1 (total_emails metrics) (time_distribution metrics).
Proof.
  intros Hrun.
  by destruct (get_email_metrics_report_after _ _ _ _ _ _ Hrun)
    as (_ & _ & _ & _ & ? & ?).
Qed.

(** ** [get_top_senders] selects the largest counts (lines 88-99) *)

Lemma insert_desc_Permutation x l : insert_desc x l ≡ₚ x :: l.
Proof.
  induction l as [|y l IH]; cbn; [done|].
  destruct (snd x <? snd y); [|done].
  rewrite IH. apply Permutation_swap.
Qed.

Lemma sorted_desc_Permutation d : sorted_desc d ≡ₚ d.
Proof.
  induction d as [|x d IH]; cbn; [done|].
  by rewrite insert_desc_Permutation, IH.
Qed.



Lemma top_senders_selection d :
  length (top_senders d) = Nat.min 10 (length d) /\
  exists rest,
    as_sender_count <$> d ≡ₚ top_senders d ++ rest /\
    forall a b, a ∈ top_senders d -> b ∈ rest -> count b <= count a.
Proof.
  unfold top_senders. split.
  - rewrite length_map, length_take.
    by rewrite (Permutation_length (sorted_desc_Permutation d)).
  - exists (as_sender_count <$> drop 10 (sorted_desc d)). split.
    + change (map (fun x => {| sender := x.1; count := x.2 |}))
        with (fmap (M:=list) as_sender_count).
      rewrite <- fmap_app, take_drop. by rewrite sorted_desc_Permutation.
    + change (map (fun x => {| sender := x.1; count := x.2 |}))
        with (fmap (M:=list) as_sender_count).
      intros a b [x [-> Hx]]%list_elem_of_fmap [y [-> Hy]]%list_elem_of_fmap.
      cbn.
      pose proof (sorted_desc_sorted d) as Hsorted.
      rewrite <- (take_drop 10 (sorted_desc d)) in Hsorted.
      by apply (StronglySorted_app_1_elem_of _ _ _ _ _ Hsorted).
Qed.

(** X9: [get_top_senders] returns all senders when there are at most
    10 and exactly 10 otherwise; the entries it returns are entries of the
    [senders] dictionary of the report, and no sender left out has a larger
    count than a sender returned. *)
Theorem get_top_senders_selects_largest lib self days h top h' :
  get_top_senders lib self days h = (Return top, h') ->
  exists metrics rest,
    get_email_metrics lib self days h = (Return metrics, h') /\
    length top = Nat.min 10 (length (senders metrics)) /\
    as_sender_count <$> senders metrics ≡ₚ top ++ rest /\
    forall a b, a ∈ top -> b ∈ rest -> count b <= count a.
Proof.
  unfold get_top_senders, bind, ret. intros Hrun.
  destruct (get_email_metrics lib self days h) as [[metrics|e] h1];
    [|discriminate].
  injection Hrun as <- <-.
  destruct (top_senders_selection (senders metrics)) as (Hlen & rest & Hperm & Hle).
  by exists metrics, rest.
Qed.



(** ** [reply_to_email] (lines 129-160) *)

Lemma reply_to_email_fetched lib self message_id reply_body h original :
  messages_get (service self) h message_id = Return original ->
  reply_to_email lib self message_id reply_body h =
  try_reraise "Error replying to email: "
    (match last_header "From" (payload_headers original),
           last_header "Subject" (payload_headers original) with
     | Some f, Some s =>
         if String.eqb f "" then
           raise (Exception "Could not determine recipient or subject")
         else send_email lib self f (reply_subject s) reply_body
     | _, _ => raise (Exception "Could not determine recipient or subject")
     end) (h ++ [CallGet message_id]).
Proof.
  intros Hget. unfold reply_to_email, try_reraise, bind, remote. rewrite Hget.
  rewrite scan_reply_headers_spec.
  destruct (last_header "From" _) as [f|], (last_header "Subject" _) as [s|];
    cbn [fmap option_fmap option_map]; try done.
  - rewrite reply_subject_truthy. cbn. by destruct (String.eqb f "").
  - cbn. by destruct (String.eqb f "").
Qed.

(** X11: when the original message has no [From] header, an empty
    [From] header, or no [Subject] header, [reply_to_email] raises
    ["Error replying to email: Could not determine recipient or subject"]
    and sends nothing: the fetch is the only remote call. *)
Theorem reply_to_email_needs_sender_and_subject
    lib self message_id reply_body h original :
  messages_get (service self) h message_id = Return original ->
  last_header "From" (payload_headers original) = None \/
  last_header "From" (payload_headers original) = Some "" \/
  last_header "Subject" (payload_headers original) = None ->
  reply_to_email lib self message_id reply_body h =
  (Raise (Exception
     "Error replying to email: Could not determine recipient or subject"),
   h ++ [CallGet message_id]).
Proof.
  intros Hget Hmissing.
  rewrite (reply_to_email_fetched lib self message_id reply_body h original Hget).
  destruct Hmissing as [-> | [-> | ->]].
  - done.
  - by destruct (last_header "Subject" _).
  - by destruct (last_header "From" _).
Qed.

(** X12: a failed fetch of the original is re-raised with the prefix
    ["Error replying to email: "] and nothing is sent.  When the original has
    a sender and a subject and the reply can be encoded, exactly one send
    follows the fetch: a send failure comes back under both prefixes, and a
    success carries the id the remote side assigned with the status
    ["sent"].  When the reply cannot be encoded, the failure of the encoding
    comes back under both prefixes and nothing is sent. *)
Theorem reply_to_email_outcomes lib self message_id reply_body h :
  (forall e,
      messages_get (service self) h message_id = Raise e ->
      reply_to_email lib self message_id reply_body h =
      (Raise (Exception ("Error replying to email: " +:+ str e)),
       h ++ [CallGet message_id])) /\
  (forall original f s raw,
      messages_get (service self) h message_id = Return original ->
      last_header "From" (payload_headers original) = Some f ->
      f <> "" ->
      last_header "Subject" (payload_headers original) = Some s ->
      mime_raw lib f (reply_subject s) reply_body = Return raw ->
      reply_to_email lib self message_id reply_body h =
      (match messages_send (service self) (h ++ [CallGet message_id]) raw with
       | Return r => Return {| message_id := sent_id r; status := "sent" |}
       | Raise e =>
           Raise (Exception ("Error replying to email: " +:+
                             ("Error sending email: " +:+ str e)))
       end,
       h ++ [CallGet message_id; CallSend raw])) /\
  (forall original f s e,
      messages_get (service self) h message_id = Return original ->
      last_header "From" (payload_headers original) = Some f ->
      f <> "" ->
      last_header "Subject" (payload_headers original) = Some s ->
      mime_raw lib f (reply_subject s) reply_body = Raise e ->
      reply_to_email lib self message_id reply_body h =
      (Raise (Exception ("Error replying to email: " +:+
                         ("Error sending email: " +:+ str e))),
       h ++ [CallGet message_id])).
Proof.
  split_and!.
  - intros e Hget. unfold reply_to_email, try_reraise, bind, remote.
    by rewrite Hget.
  - intros original f s raw Hget Hf Hne Hs Hraw.
    rewrite (reply_to_email_fetched lib self message_id reply_body h original Hget).
    rewrite Hf, Hs. destruct (String.eqb_spec f ""); [done|].
    unfold try_reraise. rewrite (send_email_unfold _ _ _ _ _ _ raw Hraw).
    rewrite <- app_assoc.
    by destruct (messages_send _ _ raw).
  - intros original f s e Hget Hf Hne Hs Hraw.
    rewrite (reply_to_email_fetched lib self message_id reply_body h original Hget).
    rewrite Hf, Hs. destruct (String.eqb_spec f ""); [done|].
    unfold try_reraise. by rewrite (send_email_unencodable _ _ _ _ _ _ e Hraw).
Qed.

(** X13: deriving the reply subject twice is the same as deriving it
    once, and a derived subject always begins with ["Re: "]: replying to a
    reply never stacks a second prefix. *)
Theorem reply_subject_idempotent s :
  reply_subject (reply_subject s) = reply_subject s /\
  exists t, reply_subject s = "Re: " +:+ t.
Proof.
  assert (exists t, reply_subject s = "Re: " +:+ t) as Hprefix.
  { unfold reply_subject. destruct (startswith s "Re: ") eqn:Hs; cbn.
    - by apply startswith_spec.
    - by exists s. }
  split; [|done].
  destruct Hprefix as [t Ht]. rewrite Ht. unfold reply_subject.
  assert (startswith ("Re: " +:+ t) "Re: " = true) as ->; [|done].
  apply startswith_spec. by exists t.
Qed.

(** ** Credential resolution and the token store ([main.py], lines 93-125) *)

Section Resolution.
Import Main.
Variable P : Platform.

Lemma recreate_credentials_state td st o st' :
  recreate_credentials td st = (o, st') -> st' = st.
Proof.
  unfold recreate_credentials, bbind, getitem, bret, braise.
  repeat (destruct (td !! _); [|by intros [= <- <-]]).
  by intros [= <- <-].
Qed.

Lemma get_credentials_missing st :
  tokens st !! "current_user" = None \/ tokens st !! "current_user" = Some ∅ ->
  get_credentials P st =
  (Raise {| status_code := 401;
            detail := "Invalid credentials: " +:+
                      http_exception_str P
                        {| status_code := 401;
                           detail := "No credentials found" |} |}, st).
Proof.
  intros [Hnone | Hempty]; unfold get_credentials, try_http.
  - by rewrite Hnone.
  - by rewrite Hempty.
Qed.

(** What a run of [get_credentials] can do to the state. *)
Lemma get_credentials_effect st o st' :
  get_credentials P st = (o, st') ->
  (st' = st \/
   (exists e, o = Raise e) /\ st' = set_calls (calls st ++ [CallRefresh]) st \/
   exists td c c',
     tokens st !! "current_user" = Some td /\ holds_credential td c /\
     o = Return c' /\
     st' = set_tokens (<["current_user" := <["token" := token c']> td]> (tokens st))
             (set_calls (calls st ++ [CallRefresh]) st)) /\
  (forall e, o = Raise e -> status_code e = 401).
Proof.
  unfold get_credentials, try_http.
  destruct (tokens st !! "current_user") as [td|] eqn:Hstored;
    [|intros [= <- <-]; split; [by left | by intros e [= <-]]].
  case_bool_decide as Hempty;
    [intros [= <- <-]; split; [by left | by intros e [= <-]]|].
  unfold bbind at 1.
  destruct (recreate_credentials td st) as [[c|e] st1] eqn:Hrec;
    pose proof (recreate_credentials_state _ _ _ _ Hrec) as ->;
    [|intros [= <- <-]; split; [by left | by intros e' [= <-]]].
  assert (holds_credential td c) as Hc.
  { revert Hrec. unfold recreate_credentials, bbind, getitem, bret, braise.
    destruct (td !! "token") eqn:H1; [|discriminate].
    destruct (td !! "refresh_token") eqn:H2; [|discriminate].
    destruct (td !! "token_uri") eqn:H3; [|discriminate].
    destruct (td !! "client_id") eqn:H4; [|discriminate].
    destruct (td !! "client_secret") eqn:H5; [|discriminate].
    destruct (td !! "scopes") eqn:H6; [|discriminate].
    intros [= <-]. by repeat split. }
  destruct (negb (cred_valid P c));
    [|intros [= <- <-]; split; [by left | done]].
  destruct (cred_expired P c && truthy (refresh_token c));
    [|intros [= <- <-]; split; [by left | done]].
  unfold bbind, refresh, store_token, bret.
  destruct (cred_refresh P (calls st) c) as [c'|e].
  - cbn [tokens set_calls]. rewrite Hstored. intros [= <- <-].
    split; [|done]. right; right. by exists td, c, c'.
  - intros [= <- <-]. split; [|by intros e' [= <-]].
    right; left. split; [by eexists|done].
Qed.

End Resolution.

(** X14: with no credential stored, or with an empty dictionary stored,
    the analytics, send and reply endpoints answer 401 with the message of
    the missing credential, and the state, hence the history of remote calls,
    is left as it was. *)
Theorem protected_endpoints_require_credential P st days email reply :
  Main.tokens st !! "current_user" = None \/
  Main.tokens st !! "current_user" = Some ∅ ->
  let unauthorized :=
    (Raise {| Main.status_code := 401;
              Main.detail :=
                "Invalid credentials: " +:+
                Main.http_exception_str P
                  {| Main.status_code := 401;
                     Main.detail := "No credentials found" |} |}, st) in
  Main.get_gmail_analytics P days st = unauthorized /\
  Main.send_email P email st = unauthorized /\
  Main.reply_email P reply st = unauthorized.
Proof.
  intros Hmissing.
  pose proof (get_credentials_missing P st Hmissing) as Hcred. cbv zeta.
  unfold Main.get_gmail_analytics, Main.send_email, Main.reply_email,
    Main.Depends.
  by rewrite Hcred.
Qed.

(** X15: [get_credentials] fails with status 401 and nothing else,
    whatever went wrong, and a failed resolution leaves the token store as it
    was; the only remote call it can have made is the refresh. *)
Theorem get_credentials_failure P st e st' :
  Main.get_credentials P st = (Raise e, st') ->
  Main.status_code e = 401 /\
  Main.tokens st' = Main.tokens st /\
  (Main.calls st' = Main.calls st \/
   Main.calls st' = Main.calls st ++ [CallRefresh]).
Proof.
  intros Hrun.
  destruct (get_credentials_effect P st _ _ Hrun) as [Heffect Hstatus].
  split; [by apply Hstatus|].
  destruct Heffect as [-> | [[_ ->] | (td & c & c' & _ & _ & Hret & _)]].
  - split; [done|by left].
  - split; [done|by right].
  - discriminate.
Qed.

(** X16: when the refresh of an expired credential is refused, the
    answer is 401 with ["Invalid credentials: "] followed by the text of the
    refusal; the refresh call is recorded and the stored access token is not
    touched. *)
Theorem get_credentials_refresh_refused P st td c e :
  Main.tokens st !! "current_user" = Some td ->
  holds_credential td c ->
  Main.cred_valid P c = false ->
  Main.cred_expired P c = true ->
  truthy (Main.refresh_token c) = true ->
  Main.cred_refresh P (Main.calls st) c = Raise e ->
  Main.get_credentials P st =
  (Raise {| Main.status_code := 401;
            Main.detail := "Invalid credentials: " +:+ str e |},
   Main.set_calls (Main.calls st ++ [CallRefresh]) st).
Proof.
  intros Hstored Hc Hvalid Hexpired Hrefresh Hcall.
  rewrite (get_credentials_stored P st td c Hstored Hc).
  rewrite Hvalid, Hexpired, Hrefresh. cbn [negb andb].
  unfold Main.try_http, Main.bbind, Main.refresh. by rewrite Hcall.
Qed.

(** X17: the credential stored by a successful callback is the one
    [get_credentials] recreates: when the library reports it valid, the next
    resolution returns it unchanged, without any remote call. *)
Theorem stored_credential_is_resolved P code st c :
  Main.oauth_fetch_token P (Main.calls st) code = Return c ->
  Main.cred_valid P c = true ->
  Main.get_credentials P (snd (Main.google_auth_callback P code st)) =
  (Return c, snd (Main.google_auth_callback P code st)).
Proof.
  intros Hfetch Hvalid.
  unfold Main.google_auth_callback, Main.try_http, Main.bbind,
    Main.fetch_token_credentials.
  rewrite Hfetch. cbn [snd].
  rewrite (get_credentials_stored P _ (Main.token_data_of c) c).
  - by rewrite Hvalid.
  - cbn [Main.tokens Main.set_tokens]. by rewrite lookup_insert_eq.
  - apply holds_credential_token_data_of.
Qed.

(** ** The endpoints and the store ([main.py], lines 67-218) *)

Section Endpoints.
Import Main.
Variable P : Platform.

Lemma try_http_status {A} code prefix (m : Body A) st e st' :
  try_http P code prefix m st = (Raise e, st') -> status_code e = code.
Proof.
  unfold try_http. destruct (m st) as [[a|x] st1]; [discriminate|].
  by intros [= <- <-].
Qed.

(** The shape shared by the analytics, send and reply handlers once the
    credential is resolved. *)
Lemma client_call_tokens {A} code prefix c
    (m : GmailAnalytics -> M A) (f : A -> Content) st :
  tokens (snd (try_http P code prefix
                 (bbind (new_GmailAnalytics P c) (fun analytics =>
                  bbind (run_remote (m analytics)) (fun r => bret (f r)))) st))
  = tokens st.
Proof.
  unfold try_http, bbind, new_GmailAnalytics, bbind, build_service, run_remote,
    bret.
  destruct (build P c) as [svc|e]; [|done].
  by destruct (m _ (calls st)) as [[a|e] h].
Qed.

Lemma verify_token_body_tokens c st :
  tokens (snd (try_http P 401 "Token verification failed: "
    (bbind (build_service P c) (fun service =>
     bbind (run_remote (remote CallGetProfile (users_getProfile service)))
       (fun profile =>
     bret (JSONDict
       (<["threads_total" := PInt (default 0 (threadsTotal profile))]>
       (<["messages_total" := PInt (default 0 (messagesTotal profile))]>
       (<["email" := of_opt_str (emailAddress profile)]>
       (<["valid" := PBool true]> ∅))))))))
    st)) = tokens st.
Proof.
  unfold try_http, bbind, build_service, run_remote, remote, bret.
  destruct (build P c) as [svc|e]; [|done].
  by destruct (users_getProfile svc (calls st)).
Qed.

Lemma store_well_formed_tokens st st' :
  tokens st' = tokens st -> store_well_formed st -> store_well_formed st'.
Proof. unfold store_well_formed. by intros ->. Qed.

Lemma get_credentials_well_formed st o st' :
  store_well_formed st ->
  get_credentials P st = (o, st') -> store_well_formed st'.
Proof.
  intros Hwf Hrun.
  destruct (get_credentials_effect P st o st' Hrun) as [Heffect _].
  destruct Heffect as [-> | [[_ ->] | (td & c & c' & Hstored & Hc & _ & ->)]];
    [done|done|].
  intros user td'. cbn [tokens set_tokens set_calls].
  rewrite lookup_insert. case_decide as Huser.
  - intros [= <-]. split; [done|].
    destruct Hc as (H1 & H2 & H3 & H4 & H5 & H6).
    exists {| token := token c'; refresh_token := refresh_token c;
              token_uri := token_uri c; client_id := client_id c;
              client_secret := client_secret c; scopes := scopes c |}.
    unfold holds_credential. cbn.
    rewrite lookup_insert_eq, !lookup_insert_ne by done. by repeat split.
  - apply Hwf.
Qed.

Lemma Depends_well_formed {A} (handler : Credentials -> App A) st :
  (forall c st1, tokens (snd (handler c st1)) = tokens st1) ->
  store_well_formed st ->
  store_well_formed (snd (Depends (get_credentials P) handler st)).
Proof.
  intros Hhandler Hwf. unfold Depends.
  destruct (get_credentials P st) as [[c|e] st1] eqn:Hcred;
    apply (get_credentials_well_formed _ _ _ Hwf) in Hcred; [|done].
  cbn [snd]. exact (store_well_formed_tokens st1 _ (Hhandler c st1) Hcred).
Qed.

Lemma callback_well_formed code st :
  store_well_formed st ->
  store_well_formed (snd (google_auth_callback P code st)).
Proof.
  intros Hwf. unfold google_auth_callback, try_http, bbind,
    fetch_token_credentials.
  destruct (oauth_fetch_token P (calls st) code) as [c|e]; [|done].
  intros user td'. cbn [snd tokens set_tokens set_calls set_flow].
  rewrite lookup_insert. case_decide as Huser.
  - intros [= <-]. split; [done|].
    exists c. apply holds_credential_token_data_of.
  - apply Hwf.
Qed.

Lemma call_endpoint_well_formed ep ps st :
  store_well_formed st -> store_well_formed (snd (call_endpoint P ep ps st)).
Proof.
  intros Hwf.
  destruct ep, ps; cbn [call_endpoint]; try done;
    try (by apply callback_well_formed).
  all: try (apply Depends_well_formed; [|done]; intros c st1;
            first [ apply (client_call_tokens 500)
                  | apply verify_token_body_tokens ]).
  all: unfold google_auth_callback_redefined, try_http, bbind,
         fetch_token_credentials, bret;
       by destruct (oauth_fetch_token P (calls st) code).
Qed.

End Endpoints.

(** X18: whatever the request, serving it keeps the token store well
    formed: it holds no user but ['current_user'], and a stored dictionary
    always has the six entries [get_credentials] reads. *)
Theorem serve_keeps_store_well_formed P req st :
  store_well_formed st -> store_well_formed (snd (Main.serve P req st)).
Proof.
  intros Hwf. unfold Main.serve.
  destruct (Main.first_match _ _ _) as [ep|]; [|done].
  by apply call_endpoint_well_formed.
Qed.

(** X19: the function defined again for the callback path at line 157
    is registered behind the first one and is never the one that serves a
    request: no method and path dispatch to it. *)
Theorem redefined_callback_is_never_served method path :
  Main.first_match method path Main.routes <> Some Main.EpCallbackRedefined.
Proof.
  unfold Main.routes. cbn [Main.first_match].
  destruct (String.eqb "GET" method), (String.eqb "POST" method);
    cbn [andb]; try done;
    destruct (String.eqb "/auth/google/callback" path); try done;
    repeat (case_match; try done).
Qed.

(** X20: each handler has its own failure status: the callback fails
    with 400 only, token verification with 401 only, and the analytics, send
    and reply endpoints with 401 when the credential cannot be resolved and
    with 500 otherwise. *)
Theorem handler_failure_statuses P st e st' :
  (forall code, Main.google_auth_callback P code st = (Raise e, st') ->
                Main.status_code e = 400) /\
  (Main.verify_token P st = (Raise e, st') -> Main.status_code e = 401) /\
  (forall days email reply,
      Main.get_gmail_analytics P days st = (Raise e, st') \/
      Main.send_email P email st = (Raise e, st') \/
      Main.reply_email P reply st = (Raise e, st') ->
      match fst (Main.get_credentials P st) with
      | Return _ => Main.status_code e = 500
      | Raise _ => Main.status_code e = 401
      end).
Proof.
  split_and!.
  - intros code. apply try_http_status.
  - unfold Main.verify_token, Main.Depends.
    destruct (Main.get_credentials P st) as [[c|x] st1] eqn:Hcred.
    + apply try_http_status.
    + intros [= <- <-].
      by destruct (get_credentials_effect P st _ _ Hcred) as [_ ->].
  - intros days email reply.
    unfold Main.get_gmail_analytics, Main.send_email, Main.reply_email,
      Main.Depends.
    destruct (Main.get_credentials P st) as [[c|x] st1] eqn:Hcred; cbn [fst].
    + intros [H | [H | H]]; by apply try_http_status in H.
    + destruct (get_credentials_effect P st _ _ Hcred) as [_ Hstatus].
      intros [[= <- <-] | [[= <- <-] | [= <- <-]]]; by apply Hstatus.
Qed.

(** X21: when building the mail client fails, verification answers 401
    and the analytics, send and reply endpoints answer 500, each with its own
    prefix before the text of the failure; no call to the mail service is
    made. *)
Theorem endpoints_when_build_fails P st credentials st1 e days email reply :
  Main.get_credentials P st = (Return credentials, st1) ->
  Main.build P credentials = Raise e ->
  Main.verify_token P st =
    (Raise {| Main.status_code := 401;
              Main.detail := "Token verification failed: " +:+ str e |}, st1) /\
  Main.get_gmail_analytics P days st =
    (Raise {| Main.status_code := 500;
              Main.detail := "Error fetching analytics: " +:+ str e |}, st1) /\
  Main.send_email P email st =
    (Raise {| Main.status_code := 500;
              Main.detail := "Error sending email: " +:+ str e |}, st1) /\
  Main.reply_email P reply st =
    (Raise {| Main.status_code := 500;
              Main.detail := "Error replying to email: " +:+ str e |}, st1).
Proof.
  intros Hcred Hbuild.
  unfold Main.verify_token, Main.get_gmail_analytics, Main.send_email,
    Main.reply_email, Main.Depends.
  rewrite Hcred.
  unfold Main.try_http, Main.bbind, Main.new_GmailAnalytics, Main.bbind,
    Main.build_service.
  by rewrite Hbuild.
Qed.

(** X22: once the credential is resolved and the client built, the
    analytics endpoint returns the report of [get_email_metrics] as its body,
    and turns a failure of it into a 500 whose message is
    ["Error fetching analytics: "] followed by the message of that failure;
    a request without [days] is served as [days = 30]. *)
Theorem analytics_endpoint_reports_metrics P st credentials st1 svc days :
  Main.get_credentials P st = (Return credentials, st1) ->
  Main.build P credentials = Return svc ->
  Main.get_gmail_analytics P days st =
    (match fst (get_email_metrics (Main.stdlib P) {| service := svc |} days
                  (Main.calls st1)) with
     | Return metrics => Return (Main.JSONMetrics metrics)
     | Raise x =>
         Raise {| Main.status_code := 500;
                  Main.detail := "Error fetching analytics: " +:+ str x |}
     end,
     Main.set_calls
       (snd (get_email_metrics (Main.stdlib P) {| service := svc |} days
               (Main.calls st1))) st1) /\
  Main.serve P {| Main.method := "GET"; Main.path := "/api/analytics";
                  Main.params := Main.NoParams |} st =
  Main.get_gmail_analytics P 30 st.
Proof.
  intros Hcred Hbuild. split; [|done].
  unfold Main.get_gmail_analytics, Main.Depends. rewrite Hcred.
  unfold Main.try_http, Main.bbind, Main.new_GmailAnalytics, Main.bbind,
    Main.build_service, Main.run_remote, Main.bret.
  rewrite Hbuild.
  by destruct (get_email_metrics _ _ _ _) as [[metrics|x] h].
Qed.

(** ** The further properties on the concrete mailbox and platforms *)

Lemma get_email_metrics_early_failures_witness :
  get_email_metrics Demo.lib_strict Demo.analytics 1000000000 [] =
    (Raise (Exception "days=1000000000; must have magnitude <= 999999999"), []) /\
  get_email_metrics Demo.lib {| service := Demo.gmail_down |} 30 [] =
    (Raise (Exception ("Error fetching email metrics: " +:+
                       str (Exception "HttpError 503: Backend Error"))),
     [] ++ [CallList "after:2024/01/01 before:2024/01/31" 500]).
Proof.
  split.
  - apply (get_email_metrics_early_failures Demo.lib_strict Demo.analytics
             1000000000 []). reflexivity.
  - apply (get_email_metrics_early_failures Demo.lib
             {| service := Demo.gmail_down |} 30 []); reflexivity.
Defined.

Lemma get_email_metrics_aborts_on_failed_fetch_witness :
  get_email_metrics Demo.lib {| service := Demo.gmail_stale |} 30 [] =
  (Raise (Exception ("Error fetching email metrics: " +:+
            str (Exception "HttpError 404: Requested entity was not found."))),
   [CallList "after:2024/01/01 before:2024/01/31" 500; CallGet "m1"]
     ++ [CallGet "gone"]).
Proof.
  eapply proj1.
  eapply (get_email_metrics_aborts_on_failed_fetch Demo.lib
            {| service := Demo.gmail_stale |} 30 [] _ _
            [ {| msg_id := "m1" |} ] {| msg_id := "gone" |}
            [ {| msg_id := "m3" |} ] _
            [CallList "after:2024/01/01 before:2024/01/31" 500; CallGet "m1"]);
    reflexivity.
Defined.

Lemma get_email_metrics_returns_when_fetches_succeed_witness :
  exists metrics,
    get_email_metrics Demo.lib Demo.analytics 30 [] =
    (Return metrics,
     [] ++ CallList "after:2024/01/01 before:2024/01/31" 500
        :: ((fun r => CallGet (msg_id r)) <$>
            [ {| msg_id := "m1" |}; {| msg_id := "m2" |}; {| msg_id := "m3" |} ])).
Proof.
  apply (get_email_metrics_returns_when_fetches_succeed Demo.lib Demo.analytics
           30 [] "after:2024/01/01 before:2024/01/31"
           {| messages := Some [ {| msg_id := "m1" |}; {| msg_id := "m2" |};
                                 {| msg_id := "m3" |} ] |});
    [reflexivity | reflexivity |].
  intros h' message Hin. apply list_elem_of_In in Hin. cbn in Hin.
  destruct Hin as [<- | [<- | [<- | []]]]; eexists; reflexivity.
Defined.

Lemma get_email_metrics_empty_mailbox_witness :
  get_email_metrics Demo.lib {| service := Demo.gmail_empty |} 30 [] =
  (Return {| total_emails := 0; senders := []; subjects := ∅;
             time_distribution := ∅;
             email_size_distribution :=
               {| small := 0; medium := 0; large := 0 |} |},
   [] ++ [CallList "after:2024/01/01 before:2024/01/31" 500]).
Proof.
  apply (get_email_metrics_empty_mailbox Demo.lib
           {| service := Demo.gmail_empty |} 30 []
           "after:2024/01/01 before:2024/01/31" {| messages := None |});
    [reflexivity | reflexivity | left; reflexivity].
Defined.

Lemma senders_counts_consistent_witness :
  NoDup (senders Demo.report).*1 /\
  Forall (fun x => fst x <> "" /\ 1 <= snd x) (senders Demo.report) /\
  od_total (senders Demo.report) <= total_emails Demo.report.
Proof.
  apply (senders_counts_consistent Demo.lib Demo.analytics 30 []
           Demo.report Demo.history).
  vm_compute. reflexivity.
Defined.

Lemma size_distribution_sums_to_total_witness :
  bucket_total (email_size_distribution Demo.report) = total_emails Demo.report.
Proof.
  apply (size_distribution_sums_to_total Demo.lib Demo.analytics 30 []
           Demo.report Demo.history).
  vm_compute. reflexivity.
Defined.

Lemma subject_and_hour_counts_bounded_witness :
  counts_between 1 (total_emails Demo.report) (subjects Demo.report) /\
  counts_between 1 (total_emails Demo.report) (time_distribution Demo.report).
Proof.
  apply (subject_and_hour_counts_bounded Demo.lib Demo.analytics 30 []
           Demo.report Demo.history).
  vm_compute. reflexivity.
Defined.

Lemma get_top_senders_selects_largest_witness :
  exists metrics rest,
    get_email_metrics Demo.lib Demo.analytics 30 [] =
      (Return metrics, Demo.history) /\
    length Demo.top = Nat.min 10 (length (senders metrics)) /\
    as_sender_count <$> senders metrics ≡ₚ Demo.top ++ rest /\
    forall a b, a ∈ Demo.top -> b ∈ rest -> count b <= count a.
Proof.
  apply (get_top_senders_selects_largest Demo.lib Demo.analytics 30 []
           Demo.top Demo.history).
  vm_compute. reflexivity.
Defined.

Lemma reply_to_email_needs_sender_and_subject_witness :
  reply_to_email Demo.lib {| service := Demo.gmail_anonymous |} "m1" "Thanks" [] =
  (Raise (Exception
     "Error replying to email: Could not determine recipient or subject"),
   [] ++ [CallGet "m1"]).
Proof.
  apply (reply_to_email_needs_sender_and_subject Demo.lib
           {| service := Demo.gmail_anonymous |} "m1" "Thanks" []
           {| payload_headers := [Demo.hdr "Subject" "Hello"];
              sizeEstimate := Some 10 |});
    [reflexivity | left; reflexivity].
Defined.

Lemma reply_to_email_outcomes_witness :
  reply_to_email Demo.lib Demo.analytics "unknown" "Thanks" [] =
    (Raise (Exception ("Error replying to email: " +:+
              str (Exception "HttpError 404: Requested entity was not found."))),
     [] ++ [CallGet "unknown"]) /\
  reply_to_email Demo.lib {| service := Demo.gmail_down |} "m1" "Thanks" [] =
    (Raise (Exception
       "Error replying to email: Error sending email: HttpError 503: Backend Error"),
     [CallGet "m1";
      CallSend "to=alice@example.com;subject=Re: Hello;body=Thanks"]).
Proof.
  split.
  - apply (reply_to_email_outcomes Demo.lib Demo.analytics "unknown" "Thanks" []).
    reflexivity.
  - destruct (reply_to_email_outcomes Demo.lib {| service := Demo.gmail_down |}
                "m1" "Thanks" []) as (_ & Hsend & _).
    etransitivity;
      [ eapply (Hsend _ "alice@example.com" "Hello"
                  "to=alice@example.com;subject=Re: Hello;body=Thanks");
        [reflexivity | reflexivity | discriminate | reflexivity | reflexivity]
      | reflexivity ].
Defined.

Lemma protected_endpoints_require_credential_witness :
  Main.response_status
    (fst (Main.get_gmail_analytics Demo.platform 30 Demo.empty_state)) = 401 /\
  snd (Main.send_email Demo.platform
         {| Main.to := "a@example.com"; Main.subject := "Hi";
            Main.body := "text" |} Demo.empty_state) = Demo.empty_state.
Proof.
  destruct (protected_endpoints_require_credential Demo.platform
              Demo.empty_state 30
              {| Main.to := "a@example.com"; Main.subject := "Hi";
                 Main.body := "text" |}
              {| Main.reply_message_id := "m1"; Main.reply_body := "text" |})
    as (Hanalytics & Hsend & _); [left; reflexivity|].
  rewrite Hanalytics, Hsend. split; reflexivity.
Defined.

Lemma get_credentials_failure_witness :
  Main.status_code
    {| Main.status_code := 401;
       Main.detail :=
         "Invalid credentials: invalid_grant: Token has been expired or revoked." |}
    = 401 /\
  Main.tokens (Main.set_calls [CallRefresh]
                 (Demo.state_with Demo.stored_refreshable)) =
  Main.tokens (Demo.state_with Demo.stored_refreshable) /\
  (Main.calls (Main.set_calls [CallRefresh]
                 (Demo.state_with Demo.stored_refreshable)) =
     Main.calls (Demo.state_with Demo.stored_refreshable) \/
   Main.calls (Main.set_calls [CallRefresh]
                 (Demo.state_with Demo.stored_refreshable)) =
     Main.calls (Demo.state_with Demo.stored_refreshable) ++ [CallRefresh]).
Proof.
  apply (get_credentials_failure Demo.platform_revoked
           (Demo.state_with Demo.stored_refreshable)).
  vm_compute. reflexivity.
Defined.

Lemma get_credentials_refresh_refused_witness :
  Main.get_credentials Demo.platform_revoked
    (Demo.state_with Demo.stored_refreshable) =
  (Raise {| Main.status_code := 401;
            Main.detail :=
              "Invalid credentials: " +:+
              str (Exception "invalid_grant: Token has been expired or revoked.") |},
   Main.set_calls
     (Main.calls (Demo.state_with Demo.stored_refreshable) ++ [CallRefresh])
     (Demo.state_with Demo.stored_refreshable)).
Proof.
  apply (get_credentials_refresh_refused Demo.platform_revoked
           (Demo.state_with Demo.stored_refreshable)
           (Main.token_data_of Demo.stored_refreshable)
           Demo.stored_refreshable);
    [ reflexivity | repeat split; reflexivity | reflexivity | reflexivity
    | reflexivity | reflexivity ].
Defined.

Lemma stored_credential_is_resolved_witness :
  Main.get_credentials Demo.platform_valid
    (snd (Main.google_auth_callback Demo.platform_valid "good" Demo.empty_state)) =
  (Return Demo.stored_refreshable,
   snd (Main.google_auth_callback Demo.platform_valid "good" Demo.empty_state)).
Proof.
  apply (stored_credential_is_resolved Demo.platform_valid "good"
           Demo.empty_state Demo.stored_refreshable); reflexivity.
Defined.

Lemma serve_keeps_store_well_formed_witness :
  store_well_formed
    (snd (Main.serve Demo.platform
            {| Main.method := "GET"; Main.path := "/auth/google/callback";
               Main.params := Main.QueryCode "good" |} Demo.empty_state)).
Proof.
  apply (serve_keeps_store_well_formed Demo.platform).
  intros user td Hlookup. vm_compute in Hlookup. discriminate.
Defined.

Lemma handler_failure_statuses_witness :
  Main.status_code
    {| Main.status_code := 400;
       Main.detail :=
         "Error during authentication: (invalid_grant) Bad Request" |} = 400.
Proof.
  destruct (handler_failure_statuses Demo.platform Demo.empty_state
              {| Main.status_code := 400;
                 Main.detail :=
                   "Error during authentication: (invalid_grant) Bad Request" |}
              (Main.set_calls [CallFetchToken "stale"] Demo.empty_state))
    as [Hcallback _].
  apply (Hcallback "stale"). vm_compute. reflexivity.
Defined.

Lemma endpoints_when_build_fails_witness :
  Main.response_status
    (fst (Main.verify_token Demo.platform_offline
            (Demo.state_with Demo.stored))) = 401 /\
  Main.response_status
    (fst (Main.get_gmail_analytics Demo.platform_offline 30
            (Demo.state_with Demo.stored))) = 500 /\
  Main.calls
    (snd (Main.get_gmail_analytics Demo.platform_offline 30
            (Demo.state_with Demo.stored))) = [].
Proof.
  destruct (endpoints_when_build_fails Demo.platform_offline
              (Demo.state_with Demo.stored) Demo.stored
              (Demo.state_with Demo.stored)
              (Exception "Unable to fetch the discovery document") 30
              {| Main.to := "a@example.com"; Main.subject := "Hi";
                 Main.body := "text" |}
              {| Main.reply_message_id := "m1"; Main.reply_body := "text" |})
    as (Hverify & Hanalytics & _); [vm_compute; reflexivity | reflexivity |].
  rewrite Hverify, Hanalytics. repeat split.
Defined.

Lemma analytics_endpoint_reports_metrics_witness :
  fst (Main.get_gmail_analytics Demo.platform_valid 30
         (Demo.state_with Demo.stored)) =
  Return (Main.JSONMetrics Demo.report).
Proof.
  destruct (analytics_endpoint_reports_metrics Demo.platform_valid
              (Demo.state_with Demo.stored) Demo.stored
              (Demo.state_with Demo.stored) Demo.gmail 30)
    as [Hrun _]; [vm_compute; reflexivity | reflexivity |].
  rewrite Hrun. vm_compute. reflexivity.
Defined.

(** ** The counts of a report are exact *)

Lemma od_get_incr k k' d :
  od_get k (od_incr k' d) = od_get k d + (if String.eqb k' k then 1 else 0).
Proof.
  induction d as [|[k0 c] d IH]; cbn.
  - destruct (String.eqb k' k); lia.
  - destruct (String.eqb_spec k0 k') as [->|Hne]; cbn.
    + destruct (String.eqb k' k); lia.
    + destruct (String.eqb_spec k0 k) as [->|Hne'].
      * destruct (String.eqb_spec k' k); [congruence|lia].
      * exact IH.
Qed.

Lemma how_many_cons (P : Message -> Prop) `{forall m, Decision (P m)} msg l :
  how_many P (msg :: l) = (if decide (P msg) then 1 else 0) + how_many P l.
Proof.
  unfold how_many. rewrite filter_cons. case_decide; cbn [length]; lia.
Qed.

Section Exact.
Variable lib : Library.

Lemma account_sender msg m s :
  od_get s (senders (account lib msg m)) =
  od_get s (senders m) + (if decide (message_sender msg = Some s) then 1 else 0).
Proof.
  destruct (account_fields lib msg m) as (-> & _ & _).
  unfold message_sender, counted.
  destruct (last_header "From" _) as [f|]; [|case_decide; [done|lia]].
  destruct (String.eqb_spec f "") as [->|Hf]; [case_decide; [done|lia]|].
  rewrite od_get_incr.
  destruct (String.eqb_spec f s); case_decide; congruence.
Qed.

Lemma account_subject msg m s :
  default 0 (subjects (account lib msg m) !! s) =
  default 0 (subjects m !! s) +
  (if decide (message_subject msg = Some s) then 1 else 0).
Proof.
  destruct (account_fields lib msg m) as (_ & -> & _).
  unfold message_subject, counted.
  destruct (last_header "Subject" _) as [f|]; [|case_decide; [done|lia]].
  destruct (String.eqb_spec f "") as [->|Hf]; [case_decide; [done|lia]|].
  unfold incr. rewrite lookup_insert.
  repeat case_decide; simplify_eq; cbn; lia.
Qed.

Lemma account_hour msg m hour :
  default 0 (time_distribution (account lib msg m) !! hour) =
  default 0 (time_distribution m !! hour) +
  (if decide (message_hour lib msg = Some hour) then 1 else 0).
Proof.
  destruct (account_fields lib msg m) as (_ & _ & ->).
  unfold message_hour, counted.
  destruct (last_header "Date" _) as [d|]; [|case_decide; [done|lia]].
  destruct (String.eqb_spec d "") as [->|Hd]; [case_decide; [done|lia]|].
  destruct (strptime_hour lib d) as [hour'|]; [|case_decide; [done|lia]].
  unfold incr. rewrite lookup_insert.
  repeat case_decide; simplify_eq; cbn; lia.
Qed.

Lemma aggregate_counts fetched : forall m,
  let m' := fold_left (fun acc msg => account lib msg acc) fetched m in
  (forall s, od_get s (senders m') =
             od_get s (senders m) +
             how_many (fun msg => message_sender msg = Some s) fetched) /\
  (forall s, default 0 (subjects m' !! s) =
             default 0 (subjects m !! s) +
             how_many (fun msg => message_subject msg = Some s) fetched) /\
  (forall hour, default 0 (time_distribution m' !! hour) =
                default 0 (time_distribution m !! hour) +
                how_many (fun msg => message_hour lib msg = Some hour) fetched).
Proof.
  induction fetched as [|msg fetched IH]; intros m; cbn zeta.
  - cbn. unfold how_many. cbn. split_and!; intros; lia.
  - cbn [fold_left].
    destruct (IH (account lib msg m)) as (Hs & Ht & Hh).
    split_and!; intros x; rewrite how_many_cons.
    + rewrite Hs, account_sender. lia.
    + rewrite Ht, account_subject. lia.
    + rewrite Hh, account_hour. lia.
Qed.

Lemma for_messages_fetched self msgs : forall metrics h metrics' h',
  for_messages lib self msgs metrics h = (Return metrics', h') ->
  exists fetched,
    fetched_by (service self) msgs fetched /\
    metrics' = fold_left (fun acc msg => account lib msg acc) fetched metrics.
Proof.
  induction msgs as [|message rest IH]; intros metrics h metrics' h' Hrun.
  - cbn in Hrun. injection Hrun as <- <-. exists []. split; [constructor|done].
  - cbn [for_messages] in Hrun. unfold bind, remote in Hrun.
    destruct (messages_get _ h _) as [msg|e] eqn:Hget; [|discriminate].
    apply IH in Hrun as (fetched & Hfetched & ->).
    exists (msg :: fetched). split; [|done].
    constructor; [by exists h|done].
Qed.

End Exact.

Lemma get_email_metrics_exact lib self days h metrics h' :
  get_email_metrics lib self days h = (Return metrics, h') ->
  exists query results fetched,
    messages_list (service self) h query 500 = Return results /\
    fetched_by (service self) (default [] (messages results)) fetched /\
    total_emails metrics = Z.of_nat (length fetched) /\
    (forall s, od_get s (senders metrics) =
               how_many (fun msg => message_sender msg = Some s) fetched) /\
    (forall s, default 0 (subjects metrics !! s) =
               how_many (fun msg => message_subject msg = Some s) fetched) /\
    (forall hour, default 0 (time_distribution metrics !! hour) =
                  how_many (fun msg => message_hour lib msg = Some hour) fetched).
Proof.
  intros Hrun.
  apply get_email_metrics_returns in Hrun as (query & results & _ & Hlist & Hloop).
  pose proof (for_messages_returns _ _ _ _ _ _ _ Hloop) as [_ Htotal].
  apply for_messages_fetched in Hloop as (fetched & Hfetched & ->).
  exists query, results, fetched. split; [done|]. split; [done|].
  split.
  { rewrite Htotal. unfold initial_metrics. cbn [total_emails].
    f_equal. exact (Forall2_length _ _ _ Hfetched). }
  destruct (aggregate_counts lib fetched
              (initial_metrics (default [] (messages results))))
    as (Hs & Ht & Hh).
  split_and!; intros x; [rewrite Hs | rewrite Ht | rewrite Hh]; cbn;
    rewrite ?lookup_empty; cbn; lia.
Qed.

(** C4: provided [strptime] only yields hours of the day, every key of
    the [time_distribution] of a returned report lies in [0,23].  A message
    whose Date header fails to parse leaves [time_distribution] as it was and
    the loop goes on with the next message without raising; in the returned
    report [total_emails] is the number of fetched messages, those with an
    unparsable date included, while the count of every hour is the number of
    fetched messages whose date parses to that hour, so that such a message
    is counted in [total_emails] and under no hour. *)
Theorem time_distribution_hours lib :
  (forall date hour, strptime_hour lib date = Some hour -> 0 <= hour <= 23) ->
  (forall self days h metrics h',
      get_email_metrics lib self days h = (Return metrics, h') ->
      hours_in_range (time_distribution metrics)) /\
  (forall self message rest metrics h msg date,
      messages_get (service self) h (msg_id message) = Return msg ->
      last_header "Date" (payload_headers msg) = Some date ->
      strptime_hour lib date = None ->
      time_distribution (account lib msg metrics) = time_distribution metrics /\
      total_emails (account lib msg metrics) = total_emails metrics /\
      for_messages lib self (message :: rest) metrics h =
      for_messages lib self rest (account lib msg metrics)
                   (h ++ [CallGet (msg_id message)])) /\
  (forall self days h metrics h',
      get_email_metrics lib self days h = (Return metrics, h') ->
      exists query results fetched,
        messages_list (service self) h query 500 = Return results /\
        fetched_by (service self) (default [] (messages results)) fetched /\
        total_emails metrics = Z.of_nat (length fetched) /\
        (forall hour,
            default 0 (time_distribution metrics !! hour) =
            how_many (fun msg => message_hour lib msg = Some hour) fetched)) /\
  (forall msg date,
      last_header "Date" (payload_headers msg) = Some date ->
      strptime_hour lib date = None ->
      message_hour lib msg = None).
Proof.
  intros Hrange. split_and!.
  - intros self days h metrics h' Hrun.
    apply get_email_metrics_returns in Hrun as (query & results & _ & _ & Hloop).
    revert Hloop.
    apply (for_messages_invariant lib self
             (fun m => hours_in_range (time_distribution m))).
    + intros msg m Hm. rewrite account_time_distribution.
      by apply count_hour_in_range.
    + apply hours_in_range_empty.
  - intros self message rest metrics h msg date Hget Hdate Hparse.
    split_and!.
    + rewrite account_time_distribution, Hdate. by apply count_hour_unparsed.
    + apply account_total.
    + by apply for_messages_cons.
  - intros self days h metrics h' Hrun.
    apply get_email_metrics_exact in Hrun
      as (query & results & fetched & Hlist & Hfetched & Htotal & _ & _ & Hhours).
    by exists query, results, fetched.
  - intros msg date Hdate Hparse. unfold message_hour, counted.
    rewrite Hdate. by destruct (String.eqb date "").
Qed.

Lemma time_distribution_hours_witness :
  hours_in_range (time_distribution Demo.report) /\
  time_distribution (account Demo.lib Demo.unparsed (initial_metrics [])) =
    time_distribution (initial_metrics []) /\
  message_hour Demo.lib Demo.unparsed = None /\
  exists query results fetched,
    messages_list Demo.gmail [] query 500 = Return results /\
    fetched_by Demo.gmail (default [] (messages results)) fetched /\
    total_emails Demo.report = Z.of_nat (length fetched) /\
    (forall hour,
        default 0 (time_distribution Demo.report !! hour) =
        how_many (fun msg => message_hour Demo.lib msg = Some hour) fetched).
Proof.
  destruct (time_distribution_hours Demo.lib fixed_layout_hour_range)
    as (Hkeys & Hskip & Hcount & Hnone).
  split_and!.
  - apply (Hkeys Demo.analytics 30 [] Demo.report Demo.history).
    vm_compute. reflexivity.
  - apply (Hskip Demo.analytics {| msg_id := "m2" |} [] (initial_metrics []) []
             Demo.unparsed "2006-01-02 09:00"); reflexivity.
  - apply (Hnone Demo.unparsed "2006-01-02 09:00"); reflexivity.
  - apply (Hcount Demo.analytics 30 [] Demo.report Demo.history).
    vm_compute. reflexivity.
Defined.

(** X23: the counts of a returned report are exact: there is one
    fetched message per listed identifier, and for every sender, subject and
    hour the report's count is the number of fetched messages that count
    under it (by their last non-empty [From], [Subject], and parsed [Date]
    header); a key that is absent stands for zero. *)
Theorem report_counts_are_exact lib self days h metrics h' :
  get_email_metrics lib self days h = (Return metrics, h') ->
  exists query results fetched,
    messages_list (service self) h query 500 = Return results /\
    fetched_by (service self) (default [] (messages results)) fetched /\
    total_emails metrics = Z.of_nat (length fetched) /\
    (forall s, od_get s (senders metrics) =
               how_many (fun msg => message_sender msg = Some s) fetched) /\
    (forall s, default 0 (subjects metrics !! s) =
               how_many (fun msg => message_subject msg = Some s) fetched) /\
    (forall hour, default 0 (time_distribution metrics !! hour) =
                  how_many (fun msg => message_hour lib msg = Some hour) fetched).
Proof. apply get_email_metrics_exact. Qed.

(** ** [get_time_distribution] (lines 101-104) *)

(** X24: [get_time_distribution] returns the hour histogram of the
    report [get_email_metrics] builds on the same remote answers, after the
    same calls; under the contract of [strptime] its keys are hours of the
    day, and each of its counts lies between 1 and the number of listed
    messages. *)
Theorem get_time_distribution_is_the_report_histogram lib self days h td h' :
  (forall date hour, strptime_hour lib date = Some hour -> 0 <= hour <= 23) ->
  get_time_distribution lib self days h = (Return td, h') ->
  exists metrics,
    get_email_metrics lib self days h = (Return metrics, h') /\
    td = time_distribution metrics /\
    hours_in_range td /\
    counts_between 1 (total_emails metrics) td.
Proof.
  intros Hrange. unfold get_time_distribution, bind, ret. intros Hrun.
  destruct (get_email_metrics lib self days h) as [[metrics|e] h1] eqn:Hmetrics;
    [|discriminate].
  injection Hrun as <- <-. exists metrics. split_and!; try done.
  - pose proof Hmetrics as Hloop.
    apply get_email_metrics_returns in Hloop as (query & results & _ & _ & Hloop).
    revert Hloop.
    apply (for_messages_invariant lib self
             (fun m => hours_in_range (time_distribution m))).
    + intros msg m Hm. rewrite account_time_distribution.
      by apply count_hour_in_range.
    + apply hours_in_range_empty.
  - by destruct (get_email_metrics_report_after _ _ _ _ _ _ Hmetrics)
      as (_ & _ & _ & _ & _ & ?).
Qed.

(** ** [verify_token] (lines 131-146) *)

(** X25: once the credential is resolved and the client built, token
    verification makes exactly one profile call; if it answers, the body
    reports [valid] as true, the address (or [None]) and the two totals, a
    missing total being reported as 0; if it fails, the answer is 401 with
    ["Token verification failed: "] followed by the text of the failure. *)
Theorem verify_token_reports_profile P st credentials st1 svc :
  Main.get_credentials P st = (Return credentials, st1) ->
  Main.build P credentials = Return svc ->
  Main.verify_token P st =
  (match users_getProfile svc (Main.calls st1) with
   | Return profile =>
       Return (Main.JSONDict
         (<["threads_total" := PInt (default 0 (threadsTotal profile))]>
         (<["messages_total" := PInt (default 0 (messagesTotal profile))]>
         (<["email" := of_opt_str (emailAddress profile)]>
         (<["valid" := PBool true]> ∅)))))
   | Raise e =>
       Raise {| Main.status_code := 401;
                Main.detail := "Token verification failed: " +:+ str e |}
   end,
   Main.set_calls (Main.calls st1 ++ [CallGetProfile]) st1).
Proof.
  intros Hcred Hbuild. unfold Main.verify_token, Main.Depends. rewrite Hcred.
  unfold Main.try_http, Main.bbind, Main.build_service, Main.run_remote,
    remote, Main.bret.
  rewrite Hbuild. by destruct (users_getProfile svc (Main.calls st1)).
Qed.

Lemma report_counts_are_exact_witness :
  exists query results fetched,
    messages_list Demo.gmail [] query 500 = Return results /\
    fetched_by Demo.gmail (default [] (messages results)) fetched /\
    total_emails Demo.report = Z.of_nat (length fetched) /\
    (forall s, od_get s (senders Demo.report) =
               how_many (fun msg => message_sender msg = Some s) fetched) /\
    (forall s, default 0 (subjects Demo.report !! s) =
               how_many (fun msg => message_subject msg = Some s) fetched) /\
    (forall hour, default 0 (time_distribution Demo.report !! hour) =
                  how_many (fun msg => message_hour Demo.lib msg = Some hour)
                           fetched).
Proof.
  apply (report_counts_are_exact Demo.lib Demo.analytics 30 []
           Demo.report Demo.history).
  vm_compute. reflexivity.
Defined.

Lemma get_time_distribution_is_the_report_histogram_witness :
  exists metrics,
    get_email_metrics Demo.lib Demo.analytics 30 [] =
      (Return metrics, Demo.history) /\
    time_distribution Demo.report = time_distribution metrics /\
    hours_in_range (time_distribution Demo.report) /\
    counts_between 1 (total_emails metrics) (time_distribution Demo.report).
Proof.
  apply (get_time_distribution_is_the_report_histogram Demo.lib Demo.analytics
           30 [] (time_distribution Demo.report) Demo.history).
  - exact fixed_layout_hour_range.
  - vm_compute. reflexivity.
Defined.

Lemma verify_token_reports_profile_witness :
  Main.response_status
    (fst (Main.verify_token Demo.platform_valid (Demo.state_with Demo.stored)))
  = 200 /\
  Main.calls
    (snd (Main.verify_token Demo.platform_valid (Demo.state_with Demo.stored)))
  = [CallGetProfile].
Proof.
  rewrite (verify_token_reports_profile Demo.platform_valid
             (Demo.state_with Demo.stored) Demo.stored
             (Demo.state_with Demo.stored) Demo.gmail);
    [ | vm_compute; reflexivity | reflexivity ].
  split; reflexivity.
Defined.
